(** * SwiftShip ETL (day 14): the transformation stage, [transform.py]

    A shallow embedding of [transform.py] and of [extract.py], which
    writes the raw files the transformation reads, with the properties of
    the transformation that its specification states and further ones
    read off the code.

    Conventions of the embedding.
    - A float column cell is a value of [float]: a rational, one of the two
      infinities, or NaN (the null marker of a numeric column).  Arithmetic
      follows IEEE 754 / NumPy on the special values (x/0 is an infinity or
      NaN, nothing raises); finite results are exact rationals, rounding is
      not modelled, and neither is the sign of zero (a zero denominator
      counts as +0, which is what [delay_minutes + 1] yields at -1).
    - Finite values are compared with [==] on [Q].
    - A timestamp is [option Z]: nanoseconds since the epoch, [None] is NaT.
    - A DataFrame is a list of typed rows; the columns whose presence the
      code tests ([col in df.columns], [df.get]) are listed in [d_columns].
      The other columns the code reads are part of the row type. *)

From Stdlib Require Import List ZArith QArith Qminmax Bool String Lia Lqa.
From Stdlib Require DecimalString.
Import ListNotations.
Local Open Scope string_scope.
Local Open Scope Q_scope.

(** ** Float cells *)

Inductive float : Type :=
| NaN
| NInf
| PInf
| Fin (q : Q).

Definition isna (x : float) : bool :=
  match x with NaN => true | _ => false end.

Definition notnull (x : float) : bool := negb (isna x).

(** [a < b] on non-NaN cells; every comparison with NaN is false. *)
Definition fltb (a b : float) : bool :=
  match a, b with
  | NaN, _ | _, NaN => false
  | NInf, NInf => false
  | NInf, _ => true
  | _, NInf => false
  | PInf, _ => false
  | Fin _, PInf => true
  | Fin x, Fin y => negb (Qle_bool y x)
  end.

Definition Qsgn (q : Q) : comparison := q ?= 0.

Definition fadd (a b : float) : float :=
  match a, b with
  | NaN, _ | _, NaN => NaN
  | PInf, NInf | NInf, PInf => NaN
  | PInf, _ | _, PInf => PInf
  | NInf, _ | _, NInf => NInf
  | Fin x, Fin y => Fin (x + y)
  end.

(** An infinity of the sign of [s], NaN when [s] is zero. *)
Definition signed_inf (s : comparison) : float :=
  match s with
  | Gt => PInf
  | Lt => NInf
  | Eq => NaN
  end.

Definition fsign (a : float) : comparison :=
  match a with
  | NaN => Eq
  | NInf => Lt
  | PInf => Gt
  | Fin q => Qsgn q
  end.

Definition fmul (a b : float) : float :=
  match a, b with
  | NaN, _ | _, NaN => NaN
  | Fin x, Fin y => Fin (x * y)
  | PInf, _ => signed_inf (fsign b)
  | NInf, _ => signed_inf (CompOpp (fsign b))
  | _, PInf => signed_inf (fsign a)
  | _, NInf => signed_inf (CompOpp (fsign a))
  end.

(** True division of two columns: no exception, x/0 is a signed infinity
    for x <> 0 and NaN for x = 0. *)
Definition fdiv (a b : float) : float :=
  match a, b with
  | NaN, _ | _, NaN => NaN
  | Fin x, Fin y =>
      if Qeq_bool y 0 then signed_inf (Qsgn x) else Fin (x / y)
  | Fin _, (PInf | NInf) => Fin 0
  | (PInf | NInf), (PInf | NInf) => NaN
  | PInf, Fin y => match Qsgn y with Lt => NInf | _ => PInf end
  | NInf, Fin y => match Qsgn y with Lt => PInf | _ => NInf end
  end.

(** [Series.fillna(v)]. *)
Definition fillna (x : float) (v : float) : float :=
  if isna x then v else x.

(** [Series.replace(old, new)] for a finite [old]: cells equal to [old]. *)
Definition replace (x : float) (old new : Q) : float :=
  match x with
  | Fin q => if Qeq_bool q old then Fin new else x
  | _ => x
  end.

(** ** [pd.cut] with explicit bin edges, [right=True], [include_lowest=False]

    pandas locates each value with [bins.searchsorted(x, side="left")], the
    number of edges strictly below the value, and masks as NaN the nulls and
    the values that land before the first edge or after the last one. *)

Definition searchsorted_left (bins : list float) (x : float) : nat :=
  List.length (filter (fun b => fltb b x) bins).

Definition cut {L : Type} (x : float) (bins : list float) (labels : list L)
  : option L :=
  if isna x then None
  else
    let ids := searchsorted_left bins x in
    if (ids =? 0)%nat || (ids =? List.length bins)%nat then None
    else nth_error labels (ids - 1).

(** ** Tables *)

(** A timestamp cell of the raw delivery file, by what
    [pd.to_datetime(..., errors="coerce")] makes of it. *)
Inductive time_cell : Type :=
| Missing                 (* JSON null, or the key is absent from the record *)
| Garbled (text : string) (* text that the date parser rejects *)
| Instant (ns : Z).       (* text that the date parser reads as this instant *)

Definition Timestamp : Type := option Z.
Definition NaT : Timestamp := None.

Definition to_datetime (c : time_cell) : Timestamp :=
  match c with
  | Instant ns => Some ns
  | Missing | Garbled _ => NaT
  end.

(** One record of ["deliveries"] after [json_normalize]. *)
Record delivery : Type := {
  shipment_id : string;
  source_city : option string;
  destination_city : option string;
  dispatch_time : time_cell;
  expected_delivery_time : time_cell;
  actual_delivery_time : time_cell;
  package_weight : float;
  delivery_agent_id : string
}.

(** The delivery frame: [d_columns] lists the columns that exist; a field of
    a row whose column is not listed carries no meaning and is never read. *)
Record delivery_frame : Type := {
  d_columns : list string;
  d_rows : list delivery
}.

Definition in_columns (col : string) (df : delivery_frame) : bool :=
  existsb (String.eqb col) (d_columns df).

(** One record of ["routes"] after [json_normalize]. *)
Record traffic : Type := {
  city : option string;
  traffic_congestion_score : float;
  avg_speed : float;
  weather_warning : option string
}.

Inductive delay_label : Type :=
| On_Time | Slight_Delay | Major_Delay | Critical_Delay.

Inductive risk_label : Type :=
| Low_Risk | Moderate_Risk | High_Risk.

(** Rows after each stage: a stage adds its columns to the row it gets. *)
Record cleaned : Type := {
  base : delivery;
  dispatch_ts : Timestamp;
  expected_ts : Timestamp;
  actual_ts : Timestamp;
  delay_minutes : float;
  package_weight_kg : float
}.

Record classified : Type := {
  cleaned_of : cleaned;
  delay_class : option delay_label
}.

Record scored : Type := {
  classified_of : classified;
  agent_score : Z
}.

Record merged : Type := {
  scored_of : scored;
  source : traffic;   (* the columns suffixed _source *)
  dest : traffic      (* the columns suffixed _dest *)
}.

Record final : Type := {
  merged_of : merged;
  traffic_impact_score : float;
  traffic_risk_level : option risk_label;
  delivery_efficiency_index : float;
  predicted_delay_risk_level : option risk_label
}.

Definition traffic_congestion_score_source (m : merged) : float :=
  traffic_congestion_score (source m).
Definition avg_speed_source (m : merged) : float := avg_speed (source m).
Definition traffic_congestion_score_dest (m : merged) : float :=
  traffic_congestion_score (dest m).
Definition avg_speed_dest (m : merged) : float := avg_speed (dest m).

Definition delivery_of (o : final) : delivery :=
  base (cleaned_of (classified_of (scored_of (merged_of o)))).
Definition final_delay_minutes (o : final) : float :=
  delay_minutes (cleaned_of (classified_of (scored_of (merged_of o)))).
Definition final_weight_kg (o : final) : float :=
  package_weight_kg (cleaned_of (classified_of (scored_of (merged_of o)))).
Definition final_agent_score (o : final) : Z :=
  agent_score (scored_of (merged_of o)).
Definition final_delay_class (o : final) : option delay_label :=
  delay_class (classified_of (scored_of (merged_of o))).

(** ** Exceptions *)

Inductive exn : Type :=
| FileNotFoundError (keyword : string)
| KeyError (column : string)
| ValueError (message : string).

Inductive result (A : Type) : Type :=
| Ok (a : A)
| Raise (e : exn).
Arguments Ok {A} a.
Arguments Raise {A} e.

(** ** [clean_delivery_data] *)

Definition ns_per_second : Q := 1000000000.

(** [(actual - expected).dt.total_seconds() / 60]; NaT on either side gives
    NaT and then NaN. *)
Definition delay_of (actual expected : Timestamp) : float :=
  match actual, expected with
  | Some a, Some e => Fin (inject_Z (a - e) / ns_per_second / 60)
  | _, _ => NaN
  end.

Definition parse_column (df : delivery_frame) (col : string) (c : time_cell)
  : Timestamp :=
  if in_columns col df then to_datetime c else NaT.

(** [df.get("package_weight", 0)]: the column when it exists, else the
    scalar default, broadcast by the assignment. *)
Definition get_package_weight (df : delivery_frame) (r : delivery) : float :=
  if in_columns "package_weight" df then package_weight r else Fin 0.

Definition clean_row (df : delivery_frame) (r : delivery) : cleaned :=
  let dispatch := parse_column df "dispatch_time" (dispatch_time r) in
  let expected :=
    parse_column df "expected_delivery_time" (expected_delivery_time r) in
  let actual :=
    parse_column df "actual_delivery_time" (actual_delivery_time r) in
  {| base := r;
     dispatch_ts := dispatch;
     expected_ts := expected;
     actual_ts := actual;
     delay_minutes := delay_of actual expected;
     package_weight_kg := get_package_weight df r |}.

Definition clean_delivery_data (df : delivery_frame) : list cleaned :=
  filter (fun c => notnull (delay_minutes c)) (map (clean_row df) (d_rows df)).

(** ** [classify_delay] and [compute_agent_score] *)

Definition delay_bins : list float := [NInf; Fin 0; Fin 60; Fin 180; PInf].
Definition delay_labels : list delay_label :=
  [On_Time; Slight_Delay; Major_Delay; Critical_Delay].

Definition classify_row (c : cleaned) : classified :=
  {| cleaned_of := c;
     delay_class := cut (delay_minutes c) delay_bins delay_labels |}.

Definition classify_delay (df : list cleaned) : list classified :=
  map classify_row df.

Definition score_bins : list float :=
  [NInf; Fin 0; Fin 30; Fin 60; Fin 180; PInf].
Definition score_labels : list Z := [5; 4; 3; 2; 1]%Z.

Definition score_cell (x : float) : option Z := cut x score_bins score_labels.

(** [.astype(int)] raises on a categorical that holds a NaN. *)
Definition score_row (c : classified) : result scored :=
  match score_cell (delay_minutes (cleaned_of c)) with
  | Some s => Ok {| classified_of := c; agent_score := s |}
  | None => Raise (ValueError "Cannot convert float NaN to integer")
  end.

Fixpoint compute_agent_score (df : list classified) : result (list scored) :=
  match df with
  | [] => Ok []
  | c :: rest =>
      match score_row c, compute_agent_score rest with
      | Ok s, Ok ss => Ok (s :: ss)
      | Raise e, _ => Raise e
      | _, Raise e => Raise e
      end
  end.

(** ** [merge_with_traffic] *)

(** Join keys are compared exactly; pandas matches a null key with a null
    key. *)
Definition key_eqb (a b : option string) : bool :=
  match a, b with
  | None, None => true
  | Some x, Some y => String.eqb x y
  | _, _ => false
  end.

(** The right-hand columns of a left row without a match. *)
Definition no_traffic : traffic :=
  {| city := None;
     traffic_congestion_score := NaN;
     avg_speed := NaN;
     weather_warning := None |}.

Definition matches (k : option string) (traffic_df : list traffic)
  : list traffic :=
  filter (fun t => key_eqb k (city t)) traffic_df.

(** [left.merge(right, left_on=key, right_on=city, how="left")]: the left
    rows in their order, each once per matching right row, or once with
    nulls when nothing matches. *)
Definition merge_left {A B : Type} (key : A -> option string)
  (pair : A -> traffic -> B) (left : list A) (traffic_df : list traffic)
  : list B :=
  flat_map
    (fun l =>
       match matches (key l) traffic_df with
       | [] => [pair l no_traffic]
       | ms => map (pair l) ms
       end)
    left.

Definition scored_source_city (s : scored) : option string :=
  source_city (base (cleaned_of (classified_of s))).
Definition scored_destination_city (s : scored) : option string :=
  destination_city (base (cleaned_of (classified_of s))).

Definition merge_with_traffic (delivery_df : list scored)
  (traffic_df : list traffic) : list merged :=
  let with_source :=
    merge_left scored_source_city (fun s t => (s, t)) delivery_df traffic_df in
  merge_left (fun st => scored_destination_city (fst st))
    (fun st t => {| scored_of := fst st; source := snd st; dest := t |})
    with_source traffic_df.

(** ** [feature_engineering] *)

Definition impact_bins : list float := [NInf; Fin 7; Fin 15; PInf].
Definition impact_labels : list risk_label :=
  [Low_Risk; Moderate_Risk; High_Risk].

Definition efficiency_bins : list float := [NInf; Fin 5; Fin 15; PInf].
Definition efficiency_labels : list risk_label :=
  [High_Risk; Moderate_Risk; Low_Risk].

Definition impact_of (m : merged) : float :=
  fmul
    (fadd
       (fdiv (fillna (traffic_congestion_score_source m) (Fin 0))
             (replace (avg_speed_source m) 0 1))
       (fdiv (fillna (traffic_congestion_score_dest m) (Fin 0))
             (replace (avg_speed_dest m) 0 1)))
    (Fin 10).

Definition efficiency_of (m : merged) : float :=
  let c := cleaned_of (classified_of (scored_of m)) in
  fmul
    (fdiv (package_weight_kg c) (fadd (delay_minutes c) (Fin 1)))
    (Fin (inject_Z (agent_score (scored_of m)))).

Definition feature_row (m : merged) : final :=
  let impact := impact_of m in
  let efficiency := efficiency_of m in
  {| merged_of := m;
     traffic_impact_score := impact;
     traffic_risk_level := cut impact impact_bins impact_labels;
     delivery_efficiency_index := efficiency;
     predicted_delay_risk_level :=
       cut efficiency efficiency_bins efficiency_labels |}.

Definition feature_engineering (df : list merged) : list final :=
  map feature_row df.

(** The five stages of [transform_pipeline], between the loads and the
    write. *)
Definition transform_frames (delivery_df : delivery_frame)
  (traffic_df : list traffic) : result (list final) :=
  let cleaned_df := clean_delivery_data delivery_df in
  let classified_df := classify_delay cleaned_df in
  match compute_agent_score classified_df with
  | Ok scored_df =>
      Ok (feature_engineering (merge_with_traffic scored_df traffic_df))
  | Raise e => Raise e
  end.

(** ** Files and the run *)

(** What [pd.read_json] and the flattening of a nested ["deliveries"] or
    ["routes"] document yield for a raw file. *)
Inductive frame : Type :=
| Deliveries (df : delivery_frame)
| Routes (df : list traffic).

Record world : Type := {
  raw_dir : list (string * frame);          (* data/raw *)
  staged_dir : list (string * list final);  (* data/staged, made on import *)
  clock : string;   (* datetime.now().strftime('%Y%m%d_%H%M%S') *)
  stdout : list string
}.

(** State and exceptions: what is done before a raise stays done. *)
Definition M (A : Type) : Type := world -> result A * world.

Definition ret {A : Type} (a : A) : M A := fun w => (Ok a, w).

Definition bind {A B : Type} (c : M A) (k : A -> M B) : M B :=
  fun w =>
    match c w with
    | (Ok a, w') => k a w'
    | (Raise e, w') => (Raise e, w')
    end.

Definition raise {A : Type} (e : exn) : M A := fun w => (Raise e, w).

Definition lift {A : Type} (r : result A) : M A := fun w => (r, w).

Notation "x <- c ;; k" := (bind c (fun x => k))
  (at level 61, c at next level, right associativity).
Notation "c ;;; k" := (bind c (fun _ => k))
  (at level 61, right associativity).

Definition print (line : string) : M unit :=
  fun w =>
    (Ok tt,
     {| raw_dir := raw_dir w;
        staged_dir := staged_dir w;
        clock := clock w;
        stdout := stdout w ++ [line] |}).

Definition now : M string := fun w => (Ok (clock w), w).

Definition write_file {A : Type} (name : string) (content : A)
  (dir : list (string * A)) : list (string * A) :=
  (name, content)
    :: filter (fun f => negb (String.eqb (fst f) name)) dir.

(** [final_df.to_csv(output_file, index=False)]: the artifact is kept as the
    table it serialises. *)
Definition to_csv (name : string) (df : list final) : M unit :=
  fun w =>
    (Ok tt,
     {| raw_dir := raw_dir w;
        staged_dir := write_file name df (staged_dir w);
        clock := clock w;
        stdout := stdout w |}).

Definition ends_with (suffix name : string) : bool :=
  let n := String.length name in
  let k := String.length suffix in
  (k <=? n)%nat && String.eqb (substring (n - k) k name) suffix.

(** [folder.glob(f"{keyword}_*.json")] on a file name. *)
Definition glob_match (keyword name : string) : bool :=
  let stem := (keyword ++ "_")%string in
  (String.length stem + String.length ".json" <=? String.length name)%nat
  && String.prefix stem name
  && ends_with ".json" name.

Definition glob (folder : list (string * frame)) (keyword : string)
  : list (string * frame) :=
  filter (fun f => glob_match keyword (fst f)) folder.

Fixpoint insert_desc (f : string * frame) (files : list (string * frame))
  : list (string * frame) :=
  match files with
  | [] => [f]
  | g :: rest =>
      if String.leb (fst g) (fst f) then f :: files
      else g :: insert_desc f rest
  end.

(** [sorted(..., reverse=True)] on the file names. *)
Definition sorted_reverse (files : list (string * frame))
  : list (string * frame) :=
  fold_right insert_desc [] files.

Definition load_latest_file (keyword : string) : M frame :=
  fun w =>
    match sorted_reverse (glob (raw_dir w) keyword) with
    | [] => raise (FileNotFoundError keyword) w
    | latest :: _ => ret (snd latest) w
    end.

(** The stages on what the two loads returned.  A frame of the other shape
    lacks the key columns [source_city] or [city]: the earlier stages go
    through and [merge_with_traffic] raises [KeyError]. *)
Definition run_stages (delivery_df traffic_df : frame) : result (list final) :=
  match delivery_df, traffic_df with
  | Deliveries d, Routes t => transform_frames d t
  | _, _ => Raise (KeyError "city")
  end.

Definition output_name (stamp : string) : string :=
  ("transformed_delivery_" ++ stamp ++ ".csv")%string.

Definition banner : string := "🔄 Starting Transformation Pipeline...".

(** [transform_pipeline], with the five stages between the loads and the
    write as a parameter: what holds of a run for every [stages] cannot
    come from a stage. *)
Definition transform_pipeline_with
  (stages : frame -> frame -> result (list final)) : M string :=
  print banner ;;;
  delivery_df <- load_latest_file "live_delivery" ;;
  traffic_df <- load_latest_file "route_traffic" ;;
  final_df <- lift (stages delivery_df traffic_df) ;;
  stamp <- now ;;
  let output_file := output_name stamp in
  to_csv output_file final_df ;;;
  print ("💾 Transformed dataset saved → " ++ output_file)%string ;;;
  ret output_file.

Definition transform_pipeline : M string :=
  transform_pipeline_with run_stages.

(** ** The fallback fixtures of [extract.py] *)

Definition minutes (m : Z) : Z := (m * 60 * 1000000000)%Z.

(** 2025-01-01 00:00 is day 20089 of the epoch. *)
Definition jan_2025 (day hour minute : Z) : Z :=
  minutes (((20089 + (day - 1)) * 24 + hour) * 60 + minute).

Definition all_columns : list string :=
  ["shipment_id"; "source_city"; "destination_city"; "dispatch_time";
   "expected_delivery_time"; "actual_delivery_time"; "package_weight";
   "delivery_agent_id"]%string.

Definition SH001 : delivery :=
  {| shipment_id := "SH001";
     source_city := Some "Hyderabad"%string;
     destination_city := Some "Mumbai"%string;
     dispatch_time := Instant (jan_2025 10 8 0);
     expected_delivery_time := Instant (jan_2025 12 20 0);
     actual_delivery_time := Missing;
     package_weight := Fin 14.2;
     delivery_agent_id := "AG145" |}.

Definition SH002 : delivery :=
  {| shipment_id := "SH002";
     source_city := Some "Delhi"%string;
     destination_city := Some "Bangalore"%string;
     dispatch_time := Instant (jan_2025 9 10 30);
     expected_delivery_time := Instant (jan_2025 11 18 0);
     actual_delivery_time := Instant (jan_2025 11 19 10);
     package_weight := Fin 7.8;
     delivery_agent_id := "AG032" |}.

Definition fallback_delivery_data : delivery_frame :=
  {| d_columns := all_columns; d_rows := [SH001; SH002] |}.

Definition fallback_traffic_data : list traffic :=
  [ {| city := Some "Hyderabad"%string;
       traffic_congestion_score := Fin 7;
       avg_speed := Fin 23.5;
       weather_warning := Some "Heavy rain"%string |};
    {| city := Some "Bangalore"%string;
       traffic_congestion_score := Fin 6;
       avg_speed := Fin 28.0;
       weather_warning := None |} ].

(** Deliveries that arrive a given number of minutes after the expected
    time, for examples. *)
Definition delivered_after (late : Z) (weight : float) : delivery :=
  {| shipment_id := "SH100";
     source_city := Some "Hyderabad"%string;
     destination_city := Some "Bangalore"%string;
     dispatch_time := Instant (jan_2025 9 10 30);
     expected_delivery_time := Instant (jan_2025 11 18 0);
     actual_delivery_time := Instant (jan_2025 11 18 0 + minutes late);
     package_weight := weight;
     delivery_agent_id := "AG032" |}.

Definition frame_of (rows : list delivery) : delivery_frame :=
  {| d_columns := all_columns; d_rows := rows |}.

Definition scored_or_empty (r : result (list scored)) : list scored :=
  match r with Ok l => l | Raise _ => [] end.

Definition rows_or_empty (r : result (list final)) : list final :=
  match r with Ok l => l | Raise _ => [] end.

Definition edge_rows : list cleaned :=
  clean_delivery_data
    (frame_of [delivered_after 0 (Fin 1); delivered_after 30 (Fin 1);
               delivered_after 60 (Fin 1); delivered_after 180 (Fin 1)]).

Definition edge_scored : list scored :=
  scored_or_empty (compute_agent_score (classify_delay edge_rows)).

(** A traffic table that reports Hyderabad twice. *)
Definition repeated_city : list traffic :=
  {| city := Some "Hyderabad"%string;
     traffic_congestion_score := Fin 9;
     avg_speed := Fin 12;
     weather_warning := None |} :: fallback_traffic_data.


Definition edge_merged : list merged :=
  merge_with_traffic edge_scored fallback_traffic_data.


(** A raw folder without a traffic file. *)
Definition no_traffic_world : world :=
  {| raw_dir :=
       [("live_delivery_20250112_090000.json"%string,
         Deliveries fallback_delivery_data)];
     staged_dir := [];
     clock := "20250112_091500";
     stdout := [] |}.

(** A raw folder with two delivery batches and one traffic batch. *)
Definition two_batches_world : world :=
  {| raw_dir :=
       [("live_delivery_20250112_090000.json"%string,
         Deliveries (frame_of [SH001]));
        ("route_traffic_20250112_090001.json"%string,
         Routes fallback_traffic_data);
        ("live_delivery_20250113_070000.json"%string,
         Deliveries fallback_delivery_data);
        ("notes.txt"%string, Routes [])];
     staged_dir := [("transformed_delivery_20250101_000000.csv"%string, [])];
     clock := "20250113_071500";
     stdout := [] |}.

(** ** [extract.py]

    Files are given by their name in the folder.  A JSON document is
    given by the frame it flattens to; [None] is the document [null]. *)

Definition DELIVERY_API : string :=
  "https://api.swiftshipexpress.in/v1/deliveries/live".
Definition TRAFFIC_API : string :=
  "https://api.swiftshipexpress.in/v1/traffic/routes".

(** What the program does not control.  The n-th request sent gets
    [respond url n]: the body of a successful answer, or the text of the
    exception that [requests.get], [raise_for_status] or [response.json]
    raises.  The n-th reading of the clock, formatted, is [stamp n]. *)
Record outside : Type := {
  respond : string -> nat -> string + frame;
  stamp : nat -> string
}.

Record extraction : Type := {
  raw_files : list (string * option frame);  (* data/raw *)
  sent : nat;                                (* requests sent *)
  clock_reads : nat;                         (* readings of the clock *)
  slept : nat;                               (* seconds in time.sleep *)
  console : list string;
  extract_log : list (string * string)       (* level and message *)
}.

Definition say (line : string) (s : extraction) : extraction :=
  {| raw_files := raw_files s; sent := sent s;
     clock_reads := clock_reads s; slept := slept s;
     console := console s ++ [line]; extract_log := extract_log s |}.

Definition log (level message : string) (s : extraction) : extraction :=
  {| raw_files := raw_files s; sent := sent s;
     clock_reads := clock_reads s; slept := slept s;
     console := console s;
     extract_log := extract_log s ++ [(level, message)] |}.

Definition sleep (seconds : nat) (s : extraction) : extraction :=
  {| raw_files := raw_files s; sent := sent s;
     clock_reads := clock_reads s; slept := slept s + seconds;
     console := console s; extract_log := extract_log s |}.

Definition count_request (s : extraction) : extraction :=
  {| raw_files := raw_files s; sent := S (sent s);
     clock_reads := clock_reads s; slept := slept s;
     console := console s; extract_log := extract_log s |}.

Definition read_clock (s : extraction) : extraction :=
  {| raw_files := raw_files s; sent := sent s;
     clock_reads := S (clock_reads s); slept := slept s;
     console := console s; extract_log := extract_log s |}.

(** [filename.write_text(json.dumps(data, indent=2))]. *)
Definition write_text (name : string) (data : option frame) (s : extraction)
  : extraction :=
  {| raw_files := write_file name data (raw_files s); sent := sent s;
     clock_reads := clock_reads s; slept := slept s;
     console := console s; extract_log := extract_log s |}.

Definition str (n : nat) : string :=
  DecimalString.NilZero.string_of_uint (Nat.to_uint n).

(** [sub in text]. *)
Definition contains (sub text : string) : bool :=
  match index 0 sub text with
  | Some _ => true
  | None => false
  end.

(** The loop of [make_request] with [left] attempts to go: [Some] is the
    [return] inside the loop, [None] the end of the loop. *)
Fixpoint attempts (out : outside) (url : string) (retries wait left : nat)
  (s : extraction) : option frame * extraction :=
  match left with
  | O => (None, s)
  | S left' =>
      let attempt := (retries - left')%nat in
      let s :=
        say ("⏳ Requesting: " ++ url ++ " (Attempt " ++ str attempt ++ "/"
             ++ str retries ++ ")")%string s in
      match respond out url (sent s) with
      | inr body =>
          (Some body,
           log "INFO" ("SUCCESS - API responded: " ++ url)%string
             (count_request s))
      | inl error =>
          attempts out url retries wait left'
            (sleep wait
               (log "ERROR"
                  ("ERROR - API request failed: " ++ url ++ " | Error: "
                   ++ error)%string
                  (say ("⚠️ Attempt " ++ str attempt
                        ++ " failed. Retrying...")%string
                     (count_request s))))
      end
  end.

Definition make_request (out : outside) (url : string) (retries wait : nat)
  (s : extraction) : option frame * extraction :=
  match attempts out url retries wait retries s with
  | (Some body, s) => (Some body, s)
  | (None, s) =>
      let s :=
        say ("❌ API failed after " ++ str retries
             ++ " retries. Using fallback data.")%string s in
      let s :=
        log "WARNING" ("FALLBACK - Using dummy data for: " ++ url)%string s in
      if contains "deliveries" url then
        (Some (Deliveries fallback_delivery_data), s)
      else if contains "traffic" url then
        (Some (Routes fallback_traffic_data), s)
      else (None, s)
  end.

Definition extract_live_delivery_data (out : outside) (s : extraction)
  : string * extraction :=
  let (data, s) := make_request out DELIVERY_API 3 2 s in
  let filename :=
    ("live_delivery_" ++ stamp out (clock_reads s) ++ ".json")%string in
  let s := write_text filename data (read_clock s) in
  let s := say ("📦 Saved Live Delivery Data → " ++ filename)%string s in
  let s := log "INFO" ("RAW saved: " ++ filename)%string s in
  (filename, s).

Definition extract_route_traffic_data (out : outside) (s : extraction)
  : string * extraction :=
  let (data, s) := make_request out TRAFFIC_API 3 2 s in
  let filename :=
    ("route_traffic_" ++ stamp out (clock_reads s) ++ ".json")%string in
  let s := write_text filename data (read_clock s) in
  let s := say ("🚦 Saved Route Traffic Data → " ++ filename)%string s in
  let s := log "INFO" ("RAW saved: " ++ filename)%string s in
  (filename, s).

Definition newline : string := String (Ascii.ascii_of_nat 10) EmptyString.

Definition extract_all (out : outside) (s : extraction)
  : list string * extraction :=
  let s := say "🚀 Starting Extraction Pipeline..." s in
  let (d1, s) := extract_live_delivery_data out s in
  let (d2, s) := extract_route_traffic_data out s in
  let s :=
    say (newline ++ "✅ Extraction Completed Successfully!")%string s in
  ([d1; d2], s).

(** The raw folder as the transformation reads it; a [null] document has
    no frame. *)
Definition documents (raw : list (string * frame))
  : list (string * option frame) :=
  map (fun f => (fst f, Some (snd f))) raw.

(** An API that never answers, and a fresh start. *)
Definition unreachable : outside :=
  {| respond := fun _ _ => inl "ConnectionError"%string;
     stamp := fun n => ("20250112_09000" ++ str n)%string |}.

(** An API whose second answer to the first call gets through. *)
Definition flaky (body : frame) : outside :=
  {| respond := fun _ n =>
       match n with
       | 1%nat => inr body
       | _ => inl "Timeout"%string
       end;
     stamp := fun n => ("20250112_09000" ++ str n)%string |}.

Definition fresh : extraction :=
  {| raw_files := []; sent := 0; clock_reads := 0; slept := 0;
     console := []; extract_log := [] |}.

(** ** Notions for the statements about the stages *)

(** Both timestamp cells of the row resolve: the column exists and the
    parser reads the cell. *)
Definition has_both_timestamps (df : delivery_frame) (r : delivery) : bool :=
  match parse_column df "actual_delivery_time" (actual_delivery_time r),
        parse_column df "expected_delivery_time" (expected_delivery_time r)
  with
  | Some _, Some _ => true
  | _, _ => false
  end.

(** How many output rows the double join makes of one delivery row. *)
Definition fan_out (traffic_df : list traffic) (s : scored) : nat :=
  (Nat.max 1 (List.length (matches (scored_source_city s) traffic_df))
   * Nat.max 1 (List.length (matches (scored_destination_city s) traffic_df)))
  %nat.

(** ** The bands of the specification *)

(** The delay bands as the specification tabulates them: right-closed. *)
Definition delay_band (q : Q) : delay_label :=
  if Qle_bool q 0 then On_Time
  else if Qle_bool q 60 then Slight_Delay
  else if Qle_bool q 180 then Major_Delay
  else Critical_Delay.

Definition score_band (q : Q) : Z :=
  if Qle_bool q 0 then 5
  else if Qle_bool q 30 then 4
  else if Qle_bool q 60 then 3
  else if Qle_bool q 180 then 2
  else 1.

Definition low_is_good_band (q : Q) : risk_label :=
  if Qle_bool q 7 then Low_Risk
  else if Qle_bool q 15 then Moderate_Risk
  else High_Risk.

Definition high_is_good_band (q : Q) : risk_label :=
  if Qle_bool q 5 then High_Risk
  else if Qle_bool q 15 then Moderate_Risk
  else Low_Risk.


(** The substitution [replace(0, 1)] makes: zero becomes one, every other
    speed stays. *)
Definition zero_as_one (v : Q) : Q := if Qeq_bool v 0 then 1 else v.

(** A congestion cell and the number it counts as: a null counts as 0. *)
Definition counts_as (cell : float) (c : Q) : Prop :=
  (cell = NaN /\ c = 0) \/ cell = Fin c.

(** * Properties *)

(** ** Comparisons and bins *)

Lemma Qle_bool_false (x y : Q) : Qle_bool x y = false <-> y < x.
Proof.
  split; intro H.
  - apply Qnot_le_lt. intro L. apply Qle_bool_iff in L. congruence.
  - destruct (Qle_bool x y) eqn:E; [|reflexivity].
    apply Qle_bool_iff in E. lra.
Qed.

Lemma Qeq_bool_false (x y : Q) : Qeq_bool x y = false <-> ~ x == y.
Proof.
  split; intro H.
  - intro E. apply Qeq_bool_iff in E. congruence.
  - destruct (Qeq_bool x y) eqn:E; [|reflexivity].
    apply Qeq_bool_iff in E. contradiction.
Qed.

(** Splits on every rational comparison of the goal and turns the outcomes
    into hypotheses for [lra]. *)
Ltac split_comparisons :=
  repeat match goal with
    | |- context [Qle_bool ?x ?y] =>
        let E := fresh "E" in
        destruct (Qle_bool x y) eqn:E;
        [apply Qle_bool_iff in E | apply Qle_bool_false in E]
    | |- context [Qeq_bool ?x ?y] =>
        let E := fresh "E" in
        destruct (Qeq_bool x y) eqn:E;
        [apply Qeq_bool_iff in E | apply Qeq_bool_false in E]
    end.

Ltac cut_by_cases :=
  unfold cut, searchsorted_left; cbn [isna filter fltb];
  split_comparisons; cbn; try reflexivity; exfalso; lra.

Lemma cut_delay_bins (q : Q) :
  cut (Fin q) delay_bins delay_labels = Some (delay_band q).
Proof. unfold delay_band, delay_bins, delay_labels. cut_by_cases. Qed.

Lemma cut_score_bins (q : Q) : score_cell (Fin q) = Some (score_band q).
Proof.
  unfold score_cell, score_band, score_bins, score_labels. cut_by_cases.
Qed.

Lemma cut_impact_bins (q : Q) :
  cut (Fin q) impact_bins impact_labels = Some (low_is_good_band q).
Proof. unfold low_is_good_band, impact_bins, impact_labels. cut_by_cases. Qed.

Lemma cut_efficiency_bins (q : Q) :
  cut (Fin q) efficiency_bins efficiency_labels = Some (high_is_good_band q).
Proof.
  unfold high_is_good_band, efficiency_bins, efficiency_labels. cut_by_cases.
Qed.

Lemma score_band_positive (q : Q) : (1 <= score_band q <= 5)%Z.
Proof. unfold score_band. split_comparisons; lia. Qed.

(** ** The stages, row by row *)

Lemma compute_agent_score_rows (df : list classified) (out : list scored) :
  compute_agent_score df = Ok out ->
  Forall2 (fun c s => score_row c = Ok s) df out.
Proof.
  revert out. induction df as [|c rest IH]; intros out H; cbn in H.
  - injection H as <-. constructor.
  - destruct (score_row c) as [s|e] eqn:Es; [|discriminate].
    destruct (compute_agent_score rest) as [ss|e] eqn:Er; [|discriminate].
    injection H as <-. constructor; auto.
Qed.

Lemma score_row_inv (c : classified) (s : scored) :
  score_row c = Ok s ->
  classified_of s = c
  /\ score_cell (delay_minutes (cleaned_of c)) = Some (agent_score s).
Proof.
  unfold score_row.
  destruct (score_cell (delay_minutes (cleaned_of c))) as [z|];
    [|discriminate].
  intro H. injection H as <-. split; reflexivity.
Qed.

Lemma compute_agent_score_In (df : list classified) (out : list scored)
  (s : scored) :
  compute_agent_score df = Ok out -> In s out ->
  exists c, In c df /\ score_row c = Ok s.
Proof.
  intros H. apply compute_agent_score_rows in H.
  induction H as [|c s' df' out' Hs _ IH]; intros Hin; [contradiction|].
  destruct Hin as [->|Hin].
  - exists c. split; [left; reflexivity | assumption].
  - destruct (IH Hin) as (c' & Hc & Hs'). exists c'. split; [right|]; auto.
Qed.

(** Scoring goes through when no delay is NaN or infinite. *)
Lemma compute_agent_score_finite (df : list classified) :
  Forall (fun c => exists q, delay_minutes (cleaned_of c) = Fin q) df ->
  exists out, compute_agent_score df = Ok out
              /\ map classified_of out = df.
Proof.
  induction 1 as [|c rest (q & Hq) _ (out & Hout & Hmap)]; cbn.
  - exists []. split; reflexivity.
  - unfold score_row. rewrite Hq, cut_score_bins, Hout.
    eexists. split; [reflexivity|]. cbn. now rewrite Hmap.
Qed.

Lemma scored_table_row (df : list cleaned) (out : list scored) (s : scored) :
  compute_agent_score (classify_delay df) = Ok out -> In s out ->
  exists c, In c df
            /\ classified_of s = classify_row c
            /\ score_cell (delay_minutes c) = Some (agent_score s).
Proof.
  intros H Hin.
  destruct (compute_agent_score_In _ _ _ H Hin) as (k & Hk & Hs).
  apply in_map_iff in Hk. destruct Hk as (c & <- & Hc).
  apply score_row_inv in Hs. destruct Hs as [H1 H2].
  exists c. auto.
Qed.

(** C1: through [classify_delay] and [compute_agent_score] a delay on a bin
    edge falls in the band below the edge: 0 is On-Time with score 5, 30 has
    score 4 (and is a Slight Delay), 60 is a Slight Delay with score 3 and
    180 is a Major Delay with score 2. *)
Theorem boundary_delay_in_lower_band
  (df : list cleaned) (out : list scored) (s : scored) (q : Q) :
  compute_agent_score (classify_delay df) = Ok out ->
  In s out ->
  delay_minutes (cleaned_of (classified_of s)) = Fin q ->
  (q == 0 ->
   delay_class (classified_of s) = Some On_Time /\ agent_score s = 5%Z)
  /\ (q == 30 ->
      delay_class (classified_of s) = Some Slight_Delay
      /\ agent_score s = 4%Z)
  /\ (q == 60 ->
      delay_class (classified_of s) = Some Slight_Delay
      /\ agent_score s = 3%Z)
  /\ (q == 180 ->
      delay_class (classified_of s) = Some Major_Delay
      /\ agent_score s = 2%Z).
Proof.
  intros H Hin Hq.
  destruct (scored_table_row _ _ _ H Hin) as (c & _ & Hc & Hs).
  rewrite Hc in Hq |- *. cbn in Hq |- *. rewrite Hq in Hs |- *.
  rewrite cut_score_bins in Hs. injection Hs as <-.
  rewrite cut_delay_bins.
  unfold delay_band, score_band.
  repeat split; split_comparisons; try reflexivity; exfalso; lra.
Qed.

Lemma boundary_delay_in_lower_band_witness :
  exists s,
    nth_error edge_scored 2 = Some s
    /\ delay_class (classified_of s) = Some Slight_Delay
    /\ agent_score s = 3%Z.
Proof.
  eexists. split; [vm_compute; reflexivity|].
  refine (proj1 (proj2 (proj2
    (boundary_delay_in_lower_band edge_rows edge_scored _ _ _ _ _))) _).
  - reflexivity.
  - right. right. left. reflexivity.
  - reflexivity.
  - reflexivity.
Defined.

(** ** [clean_delivery_data]: which rows survive *)

Lemma delay_of_cases (actual expected : Timestamp) :
  (exists a e, actual = Some a /\ expected = Some e
               /\ delay_of actual expected
                  = Fin (inject_Z (a - e) / ns_per_second / 60))
  \/ ((actual = NaT \/ expected = NaT) /\ delay_of actual expected = NaN).
Proof.
  destruct actual as [a|], expected as [e|]; cbn.
  - left. exists a, e. auto.
  - right. split; [right|]; reflexivity.
  - right. split; [left|]; reflexivity.
  - right. split; [left|]; reflexivity.
Qed.

Lemma parse_column_Some (df : delivery_frame) (col : string) (c : time_cell)
  (ns : Z) :
  parse_column df col c = Some ns <->
  in_columns col df = true /\ c = Instant ns.
Proof.
  unfold parse_column. destruct (in_columns col df); cbn.
  - destruct c; cbn; split; try intros [_ H]; try intro H;
      try discriminate; try (injection H as ->; auto).
  - split; [discriminate | intros [H _]; discriminate].
Qed.

Lemma clean_delivery_data_In (df : delivery_frame) (c : cleaned) :
  In c (clean_delivery_data df) <->
  exists r, In r (d_rows df) /\ c = clean_row df r
            /\ notnull (delay_minutes (clean_row df r)) = true.
Proof.
  unfold clean_delivery_data. rewrite filter_In, in_map_iff. split.
  - intros [(r & <- & Hr) Hn]. exists r. auto.
  - intros (r & Hr & -> & Hn). split; [exists r|]; auto.
Qed.

(** A surviving row has both timestamp columns, both cells parsed, and the
    delay is their difference. *)
Lemma clean_row_survives (df : delivery_frame) (r : delivery) :
  notnull (delay_minutes (clean_row df r)) = true <->
  exists a e,
    in_columns "actual_delivery_time" df = true
    /\ in_columns "expected_delivery_time" df = true
    /\ actual_delivery_time r = Instant a
    /\ expected_delivery_time r = Instant e
    /\ delay_minutes (clean_row df r)
       = Fin (inject_Z (a - e) / ns_per_second / 60).
Proof.
  cbn [clean_row delay_minutes]. split.
  - intro Hn.
    destruct (delay_of_cases
                (parse_column df "actual_delivery_time"
                   (actual_delivery_time r))
                (parse_column df "expected_delivery_time"
                   (expected_delivery_time r)))
      as [(a & e & Ha & He & Hd)|[_ Hd]].
    + apply parse_column_Some in Ha, He.
      exists a, e. intuition.
    + rewrite Hd in Hn. discriminate.
  - intros (a & e & _ & _ & _ & _ & ->). reflexivity.
Qed.

Lemma clean_delivery_data_finite (df : delivery_frame) :
  Forall (fun c => exists q, delay_minutes (cleaned_of c) = Fin q)
    (classify_delay (clean_delivery_data df)).
Proof.
  apply Forall_forall. intros k Hk.
  apply in_map_iff in Hk. destruct Hk as (c & <- & Hc).
  apply clean_delivery_data_In in Hc. destruct Hc as (r & _ & -> & Hn).
  apply clean_row_survives in Hn.
  destruct Hn as (a & e & _ & _ & _ & _ & Hd).
  cbn [classify_row cleaned_of]. rewrite Hd. eexists. reflexivity.
Qed.

(** ** [merge_with_traffic]: a left join *)

Section MergeLeft.
Context {A B : Type} (key : A -> option string) (pair : A -> traffic -> B).

Lemma merge_left_In (left : list A) (traffic_df : list traffic) (b : B) :
  In b (merge_left key pair left traffic_df) <->
  exists l t,
    In l left /\ b = pair l t
    /\ ((matches (key l) traffic_df = [] /\ t = no_traffic)
        \/ In t (matches (key l) traffic_df)).
Proof.
  unfold merge_left. rewrite in_flat_map. split.
  - intros (l & Hl & Hb). exists l.
    destruct (matches (key l) traffic_df) as [|m ms] eqn:Em.
    + destruct Hb as [<-|[]]. exists no_traffic. auto.
    + apply in_map_iff in Hb. destruct Hb as (t & <- & Ht).
      exists t. auto.
  - intros (l & t & Hl & -> & H). exists l. split; [assumption|].
    destruct H as [[-> ->]|Ht].
    + left. reflexivity.
    + destruct (matches (key l) traffic_df) as [|m ms]; [contradiction|].
      apply in_map. assumption.
Qed.

Lemma merge_left_keeps (left : list A) (traffic_df : list traffic) (l : A) :
  In l left ->
  exists t, In (pair l t) (merge_left key pair left traffic_df).
Proof.
  intro Hl.
  destruct (matches (key l) traffic_df) as [|m ms] eqn:Em.
  - exists no_traffic. apply merge_left_In. exists l, no_traffic. auto.
  - exists m. apply merge_left_In. exists l, m.
    rewrite Em. cbn. auto.
Qed.

Lemma merge_left_length (left : list A) (traffic_df : list traffic) :
  (List.length left
   <= List.length (merge_left key pair left traffic_df))%nat.
Proof.
  unfold merge_left. induction left as [|l rest IH]; [cbn; lia|].
  cbn [flat_map List.length]. rewrite length_app.
  set (n := List.length (flat_map _ rest)) in *.
  destruct (matches (key l) traffic_df); cbn [List.length map]; lia.
Qed.

(** With at most one match per row nothing fans out: the left rows come
    back one for one, in their order. *)
Lemma merge_left_one_for_one (proj : B -> A) (left : list A)
  (traffic_df : list traffic) :
  (forall l t, proj (pair l t) = l) ->
  (forall l, In l left ->
             (List.length (matches (key l) traffic_df) <= 1)%nat) ->
  map proj (merge_left key pair left traffic_df) = left.
Proof.
  intros Hproj. unfold merge_left.
  induction left as [|l rest IH]; intros Hone; [reflexivity|].
  cbn [flat_map].
  rewrite map_app, IH by (intros; apply Hone; right; assumption).
  specialize (Hone l (or_introl eq_refl)).
  destruct (matches (key l) traffic_df) as [|m [|m' ms]];
    cbn [List.length map app] in *.
  - now rewrite Hproj.
  - now rewrite Hproj.
  - lia.
Qed.
End MergeLeft.

Lemma key_eqb_eq (a b : option string) : key_eqb a b = true <-> a = b.
Proof.
  destruct a as [x|], b as [y|]; cbn; try (split; congruence).
  rewrite String.eqb_eq. split; congruence.
Qed.

Lemma matches_unique (k : option string) (traffic_df : list traffic) :
  NoDup (map city traffic_df) ->
  (List.length (matches k traffic_df) <= 1)%nat.
Proof.
  unfold matches. induction traffic_df as [|t rest IH]; cbn; [lia|].
  intro Hnd. inversion Hnd as [|? ? Hnot Hrest]; subst.
  specialize (IH Hrest).
  destruct (key_eqb k (city t)) eqn:Ek; [|assumption].
  apply key_eqb_eq in Ek. cbn.
  destruct (filter (fun t0 => key_eqb k (city t0)) rest) as [|u us] eqn:Ef;
    [cbn; lia|].
  exfalso. apply Hnot.
  assert (Hu : In u (filter (fun t0 => key_eqb k (city t0)) rest))
    by (rewrite Ef; left; reflexivity).
  apply filter_In in Hu. destruct Hu as [Hu Hk].
  apply key_eqb_eq in Hk. rewrite <- Ek, Hk. apply in_map. assumption.
Qed.

Lemma merge_with_traffic_In (delivery_df : list scored)
  (traffic_df : list traffic) (m : merged) :
  In m (merge_with_traffic delivery_df traffic_df) <->
  In (scored_of m) delivery_df
  /\ ((matches (scored_source_city (scored_of m)) traffic_df = []
       /\ source m = no_traffic)
      \/ In (source m) (matches (scored_source_city (scored_of m)) traffic_df))
  /\ ((matches (scored_destination_city (scored_of m)) traffic_df = []
       /\ dest m = no_traffic)
      \/ In (dest m)
           (matches (scored_destination_city (scored_of m)) traffic_df)).
Proof.
  unfold merge_with_traffic. rewrite merge_left_In. split.
  - intros ([s t] & d & Hst & -> & Hd). cbn in *.
    apply merge_left_In in Hst.
    destruct Hst as (s' & t' & Hs & Heq & Ht). injection Heq as -> ->.
    auto.
  - intros (Hs & Hsrc & Hdst). destruct m as [s src dst]. cbn in *.
    exists (s, src), dst. cbn. split; [|auto].
    apply merge_left_In. exists s, src. auto.
Qed.

Lemma merge_with_traffic_keeps (delivery_df : list scored)
  (traffic_df : list traffic) (s : scored) :
  In s delivery_df ->
  exists m, In m (merge_with_traffic delivery_df traffic_df)
            /\ scored_of m = s.
Proof.
  intro Hs. unfold merge_with_traffic.
  destruct (merge_left_keeps scored_source_city (fun s t => (s, t))
              delivery_df traffic_df s Hs) as (t & Ht).
  destruct (merge_left_keeps (fun st => scored_destination_city (fst st))
              (fun st t => {| scored_of := fst st; source := snd st;
                              dest := t |})
              _ traffic_df (s, t) Ht) as (d & Hd).
  eexists. split; [exact Hd | reflexivity].
Qed.

(** ** The five stages together *)

(** The stages never raise: after the filter every delay is finite, so
    every row gets a score. *)
Lemma transform_frames_scored (delivery_df : delivery_frame)
  (traffic_df : list traffic) :
  exists scored_df,
    compute_agent_score (classify_delay (clean_delivery_data delivery_df))
    = Ok scored_df
    /\ map classified_of scored_df
       = classify_delay (clean_delivery_data delivery_df)
    /\ transform_frames delivery_df traffic_df
       = Ok (feature_engineering (merge_with_traffic scored_df traffic_df)).
Proof.
  destruct (compute_agent_score_finite _
              (clean_delivery_data_finite delivery_df))
    as (scored_df & Hs & Hmap).
  exists scored_df. unfold transform_frames. rewrite Hs. auto.
Qed.

Lemma transform_frames_total (delivery_df : delivery_frame)
  (traffic_df : list traffic) :
  exists out, transform_frames delivery_df traffic_df = Ok out.
Proof.
  destruct (transform_frames_scored delivery_df traffic_df)
    as (s & _ & _ & H).
  eexists. exact H.
Qed.

(** Where an output row comes from. *)
Lemma transform_frames_row (delivery_df : delivery_frame)
  (traffic_df : list traffic) (out : list final) (o : final) :
  transform_frames delivery_df traffic_df = Ok out ->
  In o out ->
  o = feature_row (merged_of o)
  /\ In (delivery_of o) (d_rows delivery_df)
  /\ cleaned_of (classified_of (scored_of (merged_of o)))
     = clean_row delivery_df (delivery_of o)
  /\ notnull (final_delay_minutes o) = true
  /\ final_delay_class o
     = cut (final_delay_minutes o) delay_bins delay_labels
  /\ score_cell (final_delay_minutes o) = Some (final_agent_score o)
  /\ ((matches (source_city (delivery_of o)) traffic_df = []
       /\ source (merged_of o) = no_traffic)
      \/ In (source (merged_of o))
           (matches (source_city (delivery_of o)) traffic_df))
  /\ ((matches (destination_city (delivery_of o)) traffic_df = []
       /\ dest (merged_of o) = no_traffic)
      \/ In (dest (merged_of o))
           (matches (destination_city (delivery_of o)) traffic_df)).
Proof.
  intros H Hin.
  destruct (transform_frames_scored delivery_df traffic_df)
    as (scored_df & Hs & _ & Ht).
  rewrite Ht in H. injection H as <-.
  apply in_map_iff in Hin. destruct Hin as (m & <- & Hm).
  apply merge_with_traffic_In in Hm. destruct Hm as (Hsc & Hsrc & Hdst).
  destruct (scored_table_row _ _ _ Hs Hsc) as (c & Hc & Hcl & Hscore).
  apply clean_delivery_data_In in Hc. destruct Hc as (r & Hr & -> & Hn).
  unfold delivery_of, final_delay_minutes, final_delay_class,
    final_agent_score, scored_source_city, scored_destination_city in *.
  cbn [feature_row merged_of]. rewrite Hcl in *.
  cbn [classify_row cleaned_of delay_class clean_row base] in *.
  repeat split; auto.
Qed.

(** A row that passes the filter reaches the output. *)
Lemma transform_frames_keeps (delivery_df : delivery_frame)
  (traffic_df : list traffic) (out : list final) (r : delivery) :
  transform_frames delivery_df traffic_df = Ok out ->
  In r (d_rows delivery_df) ->
  notnull (delay_minutes (clean_row delivery_df r)) = true ->
  exists o, In o out /\ delivery_of o = r.
Proof.
  intros H Hr Hn.
  destruct (transform_frames_scored delivery_df traffic_df)
    as (scored_df & _ & Hmap & Ht).
  rewrite Ht in H. injection H as <-.
  assert (Hc : In (classify_row (clean_row delivery_df r))
                 (map classified_of scored_df)).
  { rewrite Hmap. apply in_map. apply clean_delivery_data_In.
    exists r. auto. }
  apply in_map_iff in Hc. destruct Hc as (s & Hs & Hin).
  destruct (merge_with_traffic_keeps _ traffic_df s Hin) as (m & Hm & Hms).
  exists (feature_row m). split.
  - apply in_map. assumption.
  - unfold delivery_of. cbn [feature_row merged_of].
    rewrite Hms, Hs. reflexivity.
Qed.

(** C2: the stages always go through; every output row has both timestamps
    parsed and its [delay_minutes] is the signed difference actual minus
    expected in minutes; a row of the input whose actual or expected
    timestamp is NaT (null, unparsable, or the column is absent) is not in
    the output. *)
Theorem delay_is_difference_and_undefined_rows_are_dropped
  (delivery_df : delivery_frame) (traffic_df : list traffic) :
  exists out,
    transform_frames delivery_df traffic_df = Ok out
    /\ (forall o, In o out ->
          exists a e q,
            actual_delivery_time (delivery_of o) = Instant a
            /\ expected_delivery_time (delivery_of o) = Instant e
            /\ final_delay_minutes o = Fin q
            /\ q == inject_Z (a - e) / (60 * ns_per_second))
    /\ (forall r,
          parse_column delivery_df "actual_delivery_time"
            (actual_delivery_time r) = NaT
          \/ parse_column delivery_df "expected_delivery_time"
               (expected_delivery_time r) = NaT ->
          forall o, In o out -> delivery_of o <> r).
Proof.
  destruct (transform_frames_total delivery_df traffic_df) as (out & Hout).
  exists out. split; [assumption|].
  assert (Hrow : forall o, In o out ->
            exists a e,
              parse_column delivery_df "actual_delivery_time"
                (actual_delivery_time (delivery_of o)) = Some a
              /\ parse_column delivery_df "expected_delivery_time"
                   (expected_delivery_time (delivery_of o)) = Some e
              /\ final_delay_minutes o
                 = Fin (inject_Z (a - e) / ns_per_second / 60)).
  { intros o Ho.
    destruct (transform_frames_row _ _ _ _ Hout Ho)
      as (_ & _ & Hc & Hn & _).
    unfold final_delay_minutes in *. rewrite Hc in *.
    apply clean_row_survives in Hn.
    destruct Hn as (a & e & Ca & Ce & Ha & He & Hd).
    exists a, e. rewrite Hd.
    repeat split; apply parse_column_Some; auto. }
  split.
  - intros o Ho. destruct (Hrow o Ho) as (a & e & Ha & He & Hd).
    apply parse_column_Some in Ha, He.
    exists a, e, (inject_Z (a - e) / ns_per_second / 60).
    repeat split; try tauto.
    unfold ns_per_second. field.
  - intros r Hr o Ho Er. subst r. destruct (Hrow o Ho) as (a & e & Ha & He & _).
    unfold NaT in Hr. destruct Hr as [Hr|Hr]; congruence.
Qed.

Lemma delay_is_difference_and_undefined_rows_are_dropped_witness :
  exists out,
    transform_frames fallback_delivery_data fallback_traffic_data = Ok out
    /\ List.length out = 1%nat
    /\ (forall o, In o out -> delivery_of o <> SH001).
Proof.
  destruct (delay_is_difference_and_undefined_rows_are_dropped
              fallback_delivery_data fallback_traffic_data)
    as (out & Hout & _ & Hdrop).
  exists out. split; [assumption|]. split.
  - vm_compute in Hout. injection Hout as <-. reflexivity.
  - apply Hdrop. left. reflexivity.
Defined.

(** C4, as stated, fails: a city that the traffic table lists twice doubles
    the delivery rows that leave from it. *)
Lemma join_fans_out_on_repeated_city :
  List.length edge_scored = 4%nat
  /\ List.length (merge_with_traffic edge_scored repeated_city) = 8%nat.
Proof. split; vm_compute; reflexivity. Qed.

(** C4, amended: the double join drops no delivery row and invents none.
    Every delivery row is in the output, so the output is at least as long
    as the input; a side without a matching traffic row has the null
    traffic columns; and when no city occurs twice in the traffic table the
    output has the delivery rows one for one, in their order. *)
Theorem join_keeps_every_delivery_row
  (delivery_df : list scored) (traffic_df : list traffic) :
  (List.length delivery_df
   <= List.length (merge_with_traffic delivery_df traffic_df))%nat
  /\ (forall s, In s delivery_df ->
        exists m, In m (merge_with_traffic delivery_df traffic_df)
                  /\ scored_of m = s)
  /\ (forall m, In m (merge_with_traffic delivery_df traffic_df) ->
        In (scored_of m) delivery_df
        /\ (matches (scored_source_city (scored_of m)) traffic_df = [] ->
            source m = no_traffic)
        /\ (matches (scored_destination_city (scored_of m)) traffic_df = [] ->
            dest m = no_traffic))
  /\ (NoDup (map city traffic_df) ->
      map scored_of (merge_with_traffic delivery_df traffic_df) = delivery_df
      /\ List.length (merge_with_traffic delivery_df traffic_df)
         = List.length delivery_df).
Proof.
  split; [|split; [|split]].
  - unfold merge_with_traffic.
    etransitivity; [|apply merge_left_length].
    apply merge_left_length.
  - intros s Hs. apply merge_with_traffic_keeps. assumption.
  - intros m Hm. apply merge_with_traffic_In in Hm.
    destruct Hm as (Hs & Hsrc & Hdst). split; [assumption|].
    split; intro Hnone.
    + destruct Hsrc as [[_ H]|H]; [assumption|].
      rewrite Hnone in H. contradiction.
    + destruct Hdst as [[_ H]|H]; [assumption|].
      rewrite Hnone in H. contradiction.
  - intro Hnd.
    assert (Hmap : map scored_of (merge_with_traffic delivery_df traffic_df)
                   = delivery_df).
    { unfold merge_with_traffic.
      set (with_source := merge_left scored_source_city
                            (fun s t => (s, t)) delivery_df traffic_df).
      assert (H1 : map fst with_source = delivery_df).
      { apply merge_left_one_for_one; [reflexivity|].
        intros. apply matches_unique. assumption. }
      assert (H2 : map (fun m => (scored_of m, source m))
                     (merge_left
                        (fun st => scored_destination_city (fst st))
                        (fun st t => {| scored_of := fst st;
                                        source := snd st; dest := t |})
                        with_source traffic_df)
                   = with_source).
      { apply merge_left_one_for_one.
        - intros [s t] d. reflexivity.
        - intros. apply matches_unique. assumption. }
      transitivity (map fst with_source); [|exact H1].
      rewrite <- H2 at 2. rewrite map_map. reflexivity. }
    split; [assumption|].
    rewrite <- Hmap at 2. now rewrite length_map.
Qed.

Lemma join_keeps_every_delivery_row_witness :
  map scored_of (merge_with_traffic edge_scored fallback_traffic_data)
  = edge_scored
  /\ List.length (merge_with_traffic edge_scored fallback_traffic_data)
     = List.length edge_scored.
Proof.
  apply (proj2 (proj2 (proj2
    (join_keeps_every_delivery_row edge_scored fallback_traffic_data)))).
  cbn. repeat constructor; cbn; intuition discriminate.
Defined.

(** ** [feature_engineering]: the traffic impact score *)

Lemma fdiv_replace_zero (c v : Q) :
  fdiv (Fin c) (replace (Fin v) 0 1) = Fin (c / zero_as_one v).
Proof.
  unfold replace, zero_as_one.
  destruct (Qeq_bool v 0) eqn:E; cbn; [reflexivity|].
  rewrite E. reflexivity.
Qed.

Lemma fillna_counts_as (cell : float) (c : Q) :
  counts_as cell c -> fillna cell (Fin 0) = Fin c.
Proof. intros [[-> ->]| ->]; reflexivity. Qed.


Lemma impact_of_finite (m : merged) (c_s c_d v_s v_d : Q) :
  counts_as (traffic_congestion_score_source m) c_s ->
  counts_as (traffic_congestion_score_dest m) c_d ->
  avg_speed_source m = Fin v_s ->
  avg_speed_dest m = Fin v_d ->
  impact_of m
  = Fin ((c_s / zero_as_one v_s + c_d / zero_as_one v_d) * 10).
Proof.
  intros Hcs Hcd Hvs Hvd. unfold impact_of.
  rewrite (fillna_counts_as _ _ Hcs), (fillna_counts_as _ _ Hcd), Hvs, Hvd.
  rewrite !fdiv_replace_zero. reflexivity.
Qed.

Lemma zero_as_one_positive (v : Q) : 0 <= v -> 0 < zero_as_one v.
Proof.
  unfold zero_as_one. intro H.
  destruct (Qeq_bool v 0) eqn:E; [reflexivity|].
  apply Qeq_bool_false in E. lra.
Qed.

Lemma Qdiv_nonneg (a b : Q) : 0 <= a -> 0 < b -> 0 <= a / b.
Proof. intros Ha Hb. apply Qle_shift_div_l; [assumption|]. lra. Qed.

(** What does hold of the score: with both speeds defined and nothing
    negative, the score is a non-negative number with a risk level. *)
Lemma impact_defined_with_speeds (m : merged) (c_s c_d v_s v_d : Q) :
  counts_as (traffic_congestion_score_source m) c_s ->
  counts_as (traffic_congestion_score_dest m) c_d ->
  avg_speed_source m = Fin v_s ->
  avg_speed_dest m = Fin v_d ->
  0 <= c_s -> 0 <= c_d -> 0 <= v_s -> 0 <= v_d ->
  exists q,
    traffic_impact_score (feature_row m) = Fin q
    /\ 0 <= q
    /\ traffic_risk_level (feature_row m) = Some (low_is_good_band q).
Proof.
  intros Hcs Hcd Hvs Hvd Ps Pd Vs Vd.
  cbn [feature_row traffic_impact_score traffic_risk_level].
  rewrite (impact_of_finite m c_s c_d v_s v_d) by assumption.
  eexists. split; [reflexivity|]. split; [|apply cut_impact_bins].
  pose proof (Qdiv_nonneg _ _ Ps (zero_as_one_positive _ Vs)).
  pose proof (Qdiv_nonneg _ _ Pd (zero_as_one_positive _ Vd)).
  lra.
Qed.

Lemma fdiv_by_null (x : float) : fdiv x NaN = NaN.
Proof. destruct x; reflexivity. Qed.

Lemma fadd_null_r (x : float) : fadd x NaN = NaN.
Proof. destruct x; reflexivity. Qed.

(** A null speed on either side makes the score null, and with it the risk
    level; the null congestion is filled, the null speed is not. *)
Lemma impact_null_without_speed (m : merged) :
  avg_speed_source m = NaN \/ avg_speed_dest m = NaN ->
  traffic_impact_score (feature_row m) = NaN
  /\ traffic_risk_level (feature_row m) = None.
Proof.
  intro H. cbn [feature_row traffic_impact_score traffic_risk_level].
  assert (E : impact_of m = NaN).
  { unfold impact_of. destruct H as [-> | ->]; cbn [replace].
    - rewrite fdiv_by_null. reflexivity.
    - rewrite fdiv_by_null, fadd_null_r. reflexivity. }
  rewrite E. split; reflexivity.
Qed.

(** C5 fails on the fallback data of [extract.py]: shipment SH002 leaves
    from Delhi, which the traffic fixture does not list; the row is kept,
    its source speed is null, and both its traffic impact score and its
    traffic risk level are null. *)
Theorem fallback_row_has_null_traffic_impact :
  exists o,
    transform_frames fallback_delivery_data fallback_traffic_data = Ok [o]
    /\ delivery_of o = SH002
    /\ matches (source_city SH002) fallback_traffic_data = []
    /\ avg_speed_source (merged_of o) = NaN
    /\ traffic_impact_score o = NaN
    /\ traffic_risk_level o = None.
Proof.
  eexists. split; [vm_compute; reflexivity|].
  repeat split.
Qed.




(** ** [feature_engineering]: the efficiency index *)


Lemma output_row_index (delivery_df : delivery_frame)
  (traffic_df : list traffic) (out : list final) (o : final) :
  transform_frames delivery_df traffic_df = Ok out ->
  In o out ->
  delivery_efficiency_index o
  = fmul (fdiv (final_weight_kg o) (fadd (final_delay_minutes o) (Fin 1)))
         (Fin (inject_Z (final_agent_score o)))
  /\ predicted_delay_risk_level o
     = cut (delivery_efficiency_index o) efficiency_bins efficiency_labels.
Proof.
  intros H Hin.
  destruct (transform_frames_row _ _ _ _ H Hin) as (Ho & _).
  rewrite Ho. split; reflexivity.
Qed.







Lemma output_row_delay (delivery_df : delivery_frame)
  (traffic_df : list traffic) (out : list final) (o : final) :
  transform_frames delivery_df traffic_df = Ok out ->
  In o out ->
  final_delay_minutes o
  = delay_minutes (clean_row delivery_df (delivery_of o))
  /\ final_weight_kg o = get_package_weight delivery_df (delivery_of o).
Proof.
  intros H Hin.
  destruct (transform_frames_row _ _ _ _ H Hin) as (_ & _ & Hc & _).
  unfold final_delay_minutes, final_weight_kg. rewrite Hc.
  split; reflexivity.
Qed.



(** C10: the default 0 is the weight of every row only when the frame has
    no [package_weight] column.  When it has the column the weight is
    copied as it is: a row with a null weight and a defined delay is in the
    output, and there its [package_weight_kg], its efficiency index and its
    predicted delay risk level are all null. *)
Theorem weight_default_only_without_column
  (delivery_df : delivery_frame) (traffic_df : list traffic) :
  exists out,
    transform_frames delivery_df traffic_df = Ok out
    /\ (in_columns "package_weight" delivery_df = false ->
        forall o, In o out -> final_weight_kg o = Fin 0)
    /\ (in_columns "package_weight" delivery_df = true ->
        (forall o, In o out ->
           final_weight_kg o = package_weight (delivery_of o))
        /\ (forall o, In o out ->
              package_weight (delivery_of o) = NaN ->
              final_weight_kg o = NaN
              /\ delivery_efficiency_index o = NaN
              /\ predicted_delay_risk_level o = None)
        /\ (forall r, In r (d_rows delivery_df) ->
              package_weight r = NaN ->
              notnull (delay_minutes (clean_row delivery_df r)) = true ->
              exists o, In o out /\ delivery_of o = r)).
Proof.
  destruct (transform_frames_total delivery_df traffic_df) as (out & Hout).
  exists out. split; [assumption|]. split.
  - intros Hno o Ho.
    destruct (output_row_delay _ _ _ _ Hout Ho) as (_ & Hw).
    rewrite Hw. unfold get_package_weight. rewrite Hno. reflexivity.
  - intro Hcol.
    assert (Hcopy : forall o, In o out ->
              final_weight_kg o = package_weight (delivery_of o)).
    { intros o Ho.
      destruct (output_row_delay _ _ _ _ Hout Ho) as (_ & Hw).
      rewrite Hw. unfold get_package_weight. rewrite Hcol. reflexivity. }
    split; [assumption|]. split.
    + intros o Ho Hnull.
      pose proof (Hcopy o Ho) as Hw. rewrite Hnull in Hw.
      destruct (output_row_index _ _ _ _ Hout Ho) as (Hi & Hp).
      rewrite Hw in Hi. cbn [fdiv fmul] in Hi.
      rewrite Hp, Hi. repeat split; auto.
    + intros r Hr _ Hn. apply (transform_frames_keeps _ _ _ r Hout Hr Hn).
Qed.

Lemma weight_default_only_without_column_witness :
  (exists o,
      transform_frames (frame_of [delivered_after 70 NaN])
        fallback_traffic_data = Ok [o]
      /\ final_weight_kg o = NaN
      /\ delivery_efficiency_index o = NaN
      /\ predicted_delay_risk_level o = None)
  /\ (exists o,
        transform_frames
          {| d_columns := ["expected_delivery_time"; "actual_delivery_time"];
             d_rows := [delivered_after 70 NaN] |}
          fallback_traffic_data = Ok [o]
        /\ final_weight_kg o = Fin 0).
Proof.
  split.
  - destruct (weight_default_only_without_column
                (frame_of [delivered_after 70 NaN]) fallback_traffic_data)
      as (out & Hout & _ & Hcol).
    destruct (Hcol eq_refl) as (_ & Hnull & _).
    vm_compute in Hout. injection Hout as <-.
    eexists. split; [vm_compute; reflexivity|].
    apply Hnull; [left|]; reflexivity.
  - destruct (weight_default_only_without_column
                {| d_columns :=
                     ["expected_delivery_time"; "actual_delivery_time"];
                   d_rows := [delivered_after 70 NaN] |}
                fallback_traffic_data)
      as (out & Hout & Hdefault & _).
    vm_compute in Hout. injection Hout as <-.
    eexists. split; [vm_compute; reflexivity|].
    apply Hdefault; [|left]; reflexivity.
Defined.

(** ** The run *)

Lemma insert_desc_not_nil (f : string * frame) (files : list (string * frame)) :
  insert_desc f files <> [].
Proof.
  destruct files as [|g rest]; cbn; [discriminate|].
  destruct (String.leb (fst g) (fst f)); discriminate.
Qed.

Lemma sorted_reverse_nil (files : list (string * frame)) :
  sorted_reverse files = [] <-> files = [].
Proof.
  split; [|intros ->; reflexivity].
  destruct files as [|f rest]; [reflexivity|]. cbn. intro H.
  now apply insert_desc_not_nil in H.
Qed.

Lemma load_latest_file_after_print (keyword line : string) (w : world) :
  load_latest_file keyword (snd (print line w))
  = (fst (load_latest_file keyword w), snd (print line w)).
Proof.
  unfold load_latest_file. cbn [print snd raw_dir].
  destruct (sorted_reverse (glob (raw_dir w) keyword)); reflexivity.
Qed.

Lemma load_latest_file_missing (keyword : string) (w : world) :
  glob (raw_dir w) keyword = [] <->
  fst (load_latest_file keyword w) = Raise (FileNotFoundError keyword).
Proof.
  unfold load_latest_file. rewrite <- sorted_reverse_nil.
  destruct (sorted_reverse (glob (raw_dir w) keyword)); cbn.
  - split; reflexivity.
  - split; discriminate.
Qed.

Lemma load_latest_file_found (keyword : string) (w : world) :
  glob (raw_dir w) keyword <> [] ->
  exists f, fst (load_latest_file keyword w) = Ok f.
Proof.
  intro H. rewrite <- sorted_reverse_nil in H. unfold load_latest_file.
  destruct (sorted_reverse (glob (raw_dir w) keyword)) as [|latest rest];
    [contradiction|].
  eexists. reflexivity.
Qed.

(** The run up to the end of the two loads. *)
Lemma transform_pipeline_with_loads
  (stages : frame -> frame -> result (list final)) (w : world) :
  transform_pipeline_with stages w
  = match fst (load_latest_file "live_delivery" w) with
    | Raise e => (Raise e, snd (print banner w))
    | Ok delivery_df =>
        match fst (load_latest_file "route_traffic" w) with
        | Raise e => (Raise e, snd (print banner w))
        | Ok traffic_df =>
            match stages delivery_df traffic_df with
            | Raise e => (Raise e, snd (print banner w))
            | Ok final_df =>
                let output_file := output_name (clock w) in
                (Ok output_file,
                 snd (print ("💾 Transformed dataset saved → " ++ output_file)
                        (snd (to_csv output_file final_df
                                (snd (print banner w))))))
            end
        end
    end.
Proof.
  unfold transform_pipeline_with, bind at 1.
  change (print banner w) with (Ok tt, snd (print banner w)). cbv iota.
  unfold bind at 1. rewrite load_latest_file_after_print.
  destruct (fst (load_latest_file "live_delivery" w)) as [d|e];
    [|reflexivity].
  unfold bind at 1. rewrite load_latest_file_after_print.
  destruct (fst (load_latest_file "route_traffic" w)) as [t|e];
    [|reflexivity].
  unfold bind at 1, lift.
  destruct (stages d t) as [final_df|e]; reflexivity.
Qed.

(** C7: when the raw folder has no file for the delivery data or none for
    the traffic data, the run ends with [FileNotFoundError] for the first
    missing one; the world after the run is the world after the opening
    line was printed, so the staged folder is as it was; and this is so
    whatever the stages are: none is reached. *)
Theorem missing_source_aborts_before_any_stage
  (stages : frame -> frame -> result (list final)) (w : world) :
  glob (raw_dir w) "live_delivery" = []
  \/ glob (raw_dir w) "route_traffic" = [] ->
  exists keyword,
    (keyword = "live_delivery"%string \/ keyword = "route_traffic"%string)
    /\ glob (raw_dir w) keyword = []
    /\ transform_pipeline_with stages w
       = (Raise (FileNotFoundError keyword), snd (print banner w))
    /\ transform_pipeline w
       = (Raise (FileNotFoundError keyword), snd (print banner w))
    /\ staged_dir (snd (transform_pipeline w)) = staged_dir w.
Proof.
  intro H.
  assert (K : exists keyword,
            (keyword = "live_delivery"%string
             \/ keyword = "route_traffic"%string)
            /\ glob (raw_dir w) keyword = []
            /\ forall st, transform_pipeline_with st w
                  = (Raise (FileNotFoundError keyword),
                     snd (print banner w))).
  { destruct (glob (raw_dir w) "live_delivery") as [|f fs] eqn:Ed.
    - exists "live_delivery"%string. split; [left; reflexivity|].
      split; [assumption|]. intro st.
      rewrite transform_pipeline_with_loads.
      apply load_latest_file_missing in Ed. rewrite Ed. reflexivity.
    - destruct H as [H|H]; [discriminate|].
      exists "route_traffic"%string. split; [right; reflexivity|].
      split; [assumption|]. intro st.
      rewrite transform_pipeline_with_loads.
      destruct (load_latest_file_found "live_delivery" w) as (d & Hd).
      { rewrite Ed. discriminate. }
      rewrite Hd. apply load_latest_file_missing in H. rewrite H.
      reflexivity. }
  destruct K as (keyword & Hk & Hg & Hrun).
  exists keyword. split; [assumption|]. split; [assumption|].
  split; [apply Hrun|]. unfold transform_pipeline.
  split; [apply Hrun|]. rewrite Hrun. reflexivity.
Qed.

Lemma missing_source_aborts_before_any_stage_witness :
  transform_pipeline no_traffic_world
  = (Raise (FileNotFoundError "route_traffic"),
     snd (print banner no_traffic_world))
  /\ staged_dir (snd (transform_pipeline no_traffic_world)) = [].
Proof.
  destruct (missing_source_aborts_before_any_stage run_stages
              no_traffic_world) as (keyword & Hk & Hg & _ & Hrun & Hst).
  - right. reflexivity.
  - destruct Hk as [-> | ->]; [vm_compute in Hg; discriminate|].
    split; [exact Hrun | exact Hst].
Defined.



(** * Further properties of the stages *)

(** ** Bands *)

(** X1: in the scored table every finite delay has the class and the score
    of its right-closed band: up to 0 On-Time and 5; above 0 up to 30 Slight
    Delay and 4; above 30 up to 60 Slight Delay and 3; above 60 up to 180
    Major Delay and 2; above 180 Critical Delay and 1. *)
Theorem delay_bands_are_right_closed
  (df : list cleaned) (out : list scored) (s : scored) (d : Q) :
  compute_agent_score (classify_delay df) = Ok out ->
  In s out ->
  delay_minutes (cleaned_of (classified_of s)) = Fin d ->
  (d <= 0 ->
   delay_class (classified_of s) = Some On_Time /\ agent_score s = 5%Z)
  /\ (0 < d -> d <= 30 ->
      delay_class (classified_of s) = Some Slight_Delay
      /\ agent_score s = 4%Z)
  /\ (30 < d -> d <= 60 ->
      delay_class (classified_of s) = Some Slight_Delay
      /\ agent_score s = 3%Z)
  /\ (60 < d -> d <= 180 ->
      delay_class (classified_of s) = Some Major_Delay
      /\ agent_score s = 2%Z)
  /\ (180 < d ->
      delay_class (classified_of s) = Some Critical_Delay
      /\ agent_score s = 1%Z).
Proof.
  intros H Hin Hd.
  destruct (scored_table_row _ _ _ H Hin) as (c & _ & Hc & Hs).
  rewrite Hc in Hd |- *. cbn in Hd |- *. rewrite Hd in Hs |- *.
  rewrite cut_score_bins in Hs. injection Hs as <-.
  rewrite cut_delay_bins. unfold delay_band, score_band.
  repeat split; split_comparisons; try reflexivity; exfalso; lra.
Qed.

Lemma delay_bands_are_right_closed_witness :
  exists s,
    nth_error edge_scored 1 = Some s
    /\ delay_class (classified_of s) = Some Slight_Delay
    /\ agent_score s = 4%Z.
Proof.
  eexists. split; [vm_compute; reflexivity|].
  refine (proj1 (proj2
    (delay_bands_are_right_closed edge_rows edge_scored _ _ _ _ _)) _ _).
  - reflexivity.
  - right. left. reflexivity.
  - reflexivity.
  - reflexivity.
  - discriminate.
Defined.

Lemma score_band_antitone (d1 d2 : Q) :
  d1 <= d2 -> (score_band d2 <= score_band d1)%Z.
Proof.
  intro H. unfold score_band.
  split_comparisons; try lia; exfalso; lra.
Qed.

(** X2: the agent score lies between 1 and 5 and never rises with the
    delay: of two rows of a scored table, the one with the larger delay has
    the smaller or equal score. *)
Theorem agent_score_never_rises_with_delay
  (df : list cleaned) (out : list scored) (s1 s2 : scored) (d1 d2 : Q) :
  compute_agent_score (classify_delay df) = Ok out ->
  In s1 out -> In s2 out ->
  delay_minutes (cleaned_of (classified_of s1)) = Fin d1 ->
  delay_minutes (cleaned_of (classified_of s2)) = Fin d2 ->
  d1 <= d2 ->
  (1 <= agent_score s2 <= agent_score s1)%Z /\ (agent_score s1 <= 5)%Z.
Proof.
  intros H H1 H2 E1 E2 Hle.
  destruct (scored_table_row _ _ _ H H1) as (c1 & _ & Hc1 & Hs1).
  destruct (scored_table_row _ _ _ H H2) as (c2 & _ & Hc2 & Hs2).
  rewrite Hc1 in E1. rewrite Hc2 in E2. cbn in E1, E2.
  rewrite E1, cut_score_bins in Hs1. rewrite E2, cut_score_bins in Hs2.
  injection Hs1 as <-. injection Hs2 as <-.
  pose proof (score_band_positive d1). pose proof (score_band_positive d2).
  pose proof (score_band_antitone d1 d2 Hle). lia.
Qed.

Lemma agent_score_never_rises_with_delay_witness :
  exists s1 s2,
    nth_error edge_scored 0 = Some s1
    /\ nth_error edge_scored 3 = Some s2
    /\ (1 <= agent_score s2 <= agent_score s1)%Z.
Proof.
  do 2 eexists. split; [vm_compute; reflexivity|].
  split; [vm_compute; reflexivity|].
  refine (proj1
    (agent_score_never_rises_with_delay edge_rows edge_scored _ _ _ _
       _ _ _ _ _ _)).
  - reflexivity.
  - left. reflexivity.
  - do 3 right. left. reflexivity.
  - reflexivity.
  - reflexivity.
  - discriminate.
Defined.

Lemma score_cell_none (x : float) :
  score_cell x = None <-> x = NaN \/ x = NInf.
Proof.
  destruct x as [| | |q].
  - split; [left|]; reflexivity.
  - split; [right|]; reflexivity.
  - split; [discriminate | intros [H|H]; discriminate].
  - rewrite cut_score_bins.
    split; [discriminate | intros [H|H]; discriminate].
Qed.

Lemma compute_agent_score_cons (c : classified) (rest : list classified) :
  compute_agent_score (c :: rest)
  = match score_row c, compute_agent_score rest with
    | Ok s, Ok ss => Ok (s :: ss)
    | Raise e, _ => Raise e
    | _, Raise e => Raise e
    end.
Proof. reflexivity. Qed.

Lemma compute_agent_score_ok_iff (df : list classified) :
  (exists out, compute_agent_score df = Ok out)
  <-> Forall (fun c => score_cell (delay_minutes (cleaned_of c)) <> None) df.
Proof.
  induction df as [|c rest IH].
  - split; [constructor | intros _; exists []; reflexivity].
  - rewrite compute_agent_score_cons. unfold score_row.
    destruct (score_cell (delay_minutes (cleaned_of c))) as [z|] eqn:Ez.
    + destruct (compute_agent_score rest) as [ss|e].
      * split; [|intros _; eexists; reflexivity].
        intros _. constructor; [congruence|].
        apply IH. eexists. reflexivity.
      * split.
        -- intros (out & Hout). discriminate.
        -- intro Hall. inversion Hall as [|? ? _ Hrest]; subst.
           apply IH in Hrest. destruct Hrest as (out & Hout). discriminate.
    + split.
      * intros (out & Hout). discriminate.
      * intro Hall. inversion Hall as [|? ? Hc _]; subst. contradiction.
Qed.

Lemma compute_agent_score_error (df : list classified) (e : exn) :
  compute_agent_score df = Raise e ->
  e = ValueError "Cannot convert float NaN to integer".
Proof.
  induction df as [|c rest IH]; [discriminate|].
  rewrite compute_agent_score_cons. unfold score_row.
  destruct (score_cell (delay_minutes (cleaned_of c))).
  - destruct (compute_agent_score rest) as [ss|e']; [discriminate|].
    intro H. injection H as <-. apply IH. reflexivity.
  - intro H. injection H as <-. reflexivity.
Qed.

(** X3: [compute_agent_score] returns a table exactly when no delay of its
    input is NaN or -infinity (+infinity has score 1); otherwise it raises
    the [ValueError] of the integer cast, whereas [classify_delay] leaves
    such a class null without raising. *)
Theorem compute_agent_score_raises_on_null_score (df : list cleaned) :
  ((exists out, compute_agent_score (classify_delay df) = Ok out)
   <-> Forall (fun c => delay_minutes c <> NaN /\ delay_minutes c <> NInf) df)
  /\ (forall e, compute_agent_score (classify_delay df) = Raise e ->
        e = ValueError "Cannot convert float NaN to integer")
  /\ (forall c,
        delay_minutes c = NaN \/ delay_minutes c = NInf ->
        delay_class (classify_row c) = None)
  /\ (forall c, delay_minutes c = PInf ->
        delay_class (classify_row c) = Some Critical_Delay
        /\ score_cell (delay_minutes c) = Some 1%Z).
Proof.
  split; [|split; [|split]].
  - rewrite compute_agent_score_ok_iff. unfold classify_delay.
    rewrite Forall_map.
    split; apply Forall_impl; intro c; cbn [classify_row cleaned_of];
      rewrite score_cell_none; tauto.
  - intro e. apply compute_agent_score_error.
  - intros c [H|H]; cbn; rewrite H; reflexivity.
  - intros c H. cbn. rewrite H. split; reflexivity.
Qed.

Lemma compute_agent_score_raises_on_null_score_witness :
  exists out, compute_agent_score (classify_delay edge_rows) = Ok out.
Proof.
  apply (proj1 (compute_agent_score_raises_on_null_score edge_rows)).
  repeat constructor; discriminate.
Defined.

(** ** The filter *)

Lemma notnull_delay_iff (df : delivery_frame) (r : delivery) :
  notnull (delay_minutes (clean_row df r)) = has_both_timestamps df r.
Proof.
  unfold has_both_timestamps. cbn [clean_row delay_minutes].
  destruct (parse_column df "actual_delivery_time" (actual_delivery_time r)),
    (parse_column df "expected_delivery_time" (expected_delivery_time r));
    reflexivity.
Qed.

Lemma filter_map_commute {A B : Type} (f : A -> B) (p : B -> bool)
  (l : list A) :
  filter p (map f l) = map f (filter (fun a => p (f a)) l).
Proof.
  induction l as [|a rest IH]; cbn; [reflexivity|].
  destruct (p (f a)); cbn; now rewrite IH.
Qed.

Lemma clean_delivery_data_filter (df : delivery_frame) :
  clean_delivery_data df
  = map (clean_row df) (filter (has_both_timestamps df) (d_rows df)).
Proof.
  unfold clean_delivery_data. rewrite filter_map_commute.
  f_equal. apply filter_ext. intro r. apply notnull_delay_iff.
Qed.

Lemma clean_delivery_data_base (df : delivery_frame) :
  map base (clean_delivery_data df)
  = filter (has_both_timestamps df) (d_rows df).
Proof.
  rewrite clean_delivery_data_filter, map_map. cbn [clean_row base].
  apply map_id.
Qed.

(** X4: [clean_delivery_data] keeps exactly the rows whose actual and
    expected timestamps both resolve, unchanged, once each and in the order
    of the input; the dispatch time and the weight play no part in it. *)
Theorem clean_keeps_rows_with_both_timestamps (df : delivery_frame) :
  map base (clean_delivery_data df)
  = filter (has_both_timestamps df) (d_rows df)
  /\ (List.length (clean_delivery_data df) <= List.length (d_rows df))%nat
  /\ (forall c, In c (clean_delivery_data df) ->
        c = clean_row df (base c) /\ exists q, delay_minutes c = Fin q).
Proof.
  split; [|split].
  - apply clean_delivery_data_base.
  - rewrite clean_delivery_data_filter, length_map. apply filter_length_le.
  - intros c Hc. apply clean_delivery_data_In in Hc.
    destruct Hc as (r & _ & -> & Hn). split; [reflexivity|].
    apply clean_row_survives in Hn.
    destruct Hn as (a & e & _ & _ & _ & _ & ->). eexists. reflexivity.
Qed.



(** ** The join *)

Lemma list_sum_constant {A : Type} (v : nat) (w : A -> nat) (l : list A) :
  (forall a, In a l -> w a = v) ->
  list_sum (map w l) = (List.length l * v)%nat.
Proof.
  induction l as [|a rest IH]; intro H; [reflexivity|].
  change (list_sum (map w (a :: rest)))
    with (w a + list_sum (map w rest))%nat.
  rewrite IH by (intros; apply H; right; assumption).
  rewrite (H a) by (left; reflexivity). cbn [List.length]. lia.
Qed.

Lemma merge_left_weighted {A B : Type} (key : A -> option string)
  (pair : A -> traffic -> B) (w : B -> nat) (v : A -> nat)
  (left : list A) (traffic_df : list traffic) :
  (forall l t, w (pair l t) = v l) ->
  list_sum (map w (merge_left key pair left traffic_df))
  = list_sum
      (map (fun l =>
              (Nat.max 1 (List.length (matches (key l) traffic_df)) * v l)
              %nat)
         left).
Proof.
  intro Hw. unfold merge_left.
  induction left as [|l rest IH]; [reflexivity|].
  cbn [flat_map]. rewrite map_app, list_sum_app, IH.
  change (list_sum (map ?f (l :: rest)))
    with (f l + list_sum (map f rest))%nat.
  cbv beta. f_equal.
  destruct (matches (key l) traffic_df) as [|m ms].
  - cbn. rewrite Hw. lia.
  - rewrite (list_sum_constant (v l)).
    + rewrite length_map. reflexivity.
    + intros b Hb. apply in_map_iff in Hb.
      destruct Hb as (t & <- & _). apply Hw.
Qed.

Lemma length_as_sum {A : Type} (l : list A) :
  List.length l = list_sum (map (fun _ => 1%nat) l).
Proof.
  induction l as [|a rest IH]; [reflexivity|].
  cbn [List.length]. rewrite IH. reflexivity.
Qed.

(** X6: the double join makes of each delivery row as many output rows as
    it has matches at the source, counted as one when there is none,
    times its matches at the destination, counted likewise; the output has
    the sum of these over the delivery rows. *)
Theorem join_row_count (delivery_df : list scored)
  (traffic_df : list traffic) :
  List.length (merge_with_traffic delivery_df traffic_df)
  = list_sum (map (fan_out traffic_df) delivery_df).
Proof.
  unfold merge_with_traffic. rewrite length_as_sum.
  rewrite (merge_left_weighted _ _ (fun _ => 1%nat) (fun _ => 1%nat))
    by reflexivity.
  rewrite (merge_left_weighted scored_source_city (fun s t => (s, t))
             (fun st =>
                (Nat.max 1
                   (List.length
                      (matches (scored_destination_city (fst st))
                         traffic_df)) * 1)%nat)
             (fun s =>
                (Nat.max 1
                   (List.length
                      (matches (scored_destination_city s) traffic_df)) * 1)
                %nat))
    by reflexivity.
  apply f_equal, map_ext. intro s. unfold fan_out. lia.
Qed.






(** ** Risk levels and the efficiency index *)

Lemma cut_impact_none (x : float) :
  cut x impact_bins impact_labels = None <-> x = NaN \/ x = NInf.
Proof.
  destruct x as [| | |q].
  - split; [left|]; reflexivity.
  - split; [right|]; reflexivity.
  - split; [discriminate | intros [H|H]; discriminate].
  - rewrite cut_impact_bins.
    split; [discriminate | intros [H|H]; discriminate].
Qed.

Lemma cut_efficiency_none (x : float) :
  cut x efficiency_bins efficiency_labels = None <-> x = NaN \/ x = NInf.
Proof.
  destruct x as [| | |q].
  - split; [left|]; reflexivity.
  - split; [right|]; reflexivity.
  - split; [discriminate | intros [H|H]; discriminate].
  - rewrite cut_efficiency_bins.
    split; [discriminate | intros [H|H]; discriminate].
Qed.

(** X9: the two risk levels of [feature_engineering] follow right-closed
    bands of opposite direction.  Traffic: a score up to 7 is Low Risk,
    above 7 up to 15 Moderate Risk, above 15 (also +infinity) High Risk.
    Predicted delay: an index up to 5 is High Risk, above 5 up to 15
    Moderate Risk, above 15 (also +infinity) Low Risk.  Either level is
    null exactly when its number is NaN or -infinity. *)
Theorem risk_levels_follow_right_closed_bands (m : merged) :
  (forall q, traffic_impact_score (feature_row m) = Fin q ->
     (q <= 7 -> traffic_risk_level (feature_row m) = Some Low_Risk)
     /\ (7 < q -> q <= 15 ->
         traffic_risk_level (feature_row m) = Some Moderate_Risk)
     /\ (15 < q -> traffic_risk_level (feature_row m) = Some High_Risk))
  /\ (traffic_impact_score (feature_row m) = PInf ->
      traffic_risk_level (feature_row m) = Some High_Risk)
  /\ (traffic_risk_level (feature_row m) = None
      <-> traffic_impact_score (feature_row m) = NaN
          \/ traffic_impact_score (feature_row m) = NInf)
  /\ (forall q, delivery_efficiency_index (feature_row m) = Fin q ->
        (q <= 5 ->
         predicted_delay_risk_level (feature_row m) = Some High_Risk)
        /\ (5 < q -> q <= 15 ->
            predicted_delay_risk_level (feature_row m) = Some Moderate_Risk)
        /\ (15 < q ->
            predicted_delay_risk_level (feature_row m) = Some Low_Risk))
  /\ (delivery_efficiency_index (feature_row m) = PInf ->
      predicted_delay_risk_level (feature_row m) = Some Low_Risk)
  /\ (predicted_delay_risk_level (feature_row m) = None
      <-> delivery_efficiency_index (feature_row m) = NaN
          \/ delivery_efficiency_index (feature_row m) = NInf).
Proof.
  cbn [feature_row traffic_impact_score traffic_risk_level
         delivery_efficiency_index predicted_delay_risk_level].
  split; [|split; [|split; [|split; [|split]]]].
  - intros q ->. rewrite cut_impact_bins. unfold low_is_good_band.
    repeat split; intros; split_comparisons; try reflexivity; exfalso; lra.
  - intros ->. reflexivity.
  - apply cut_impact_none.
  - intros q ->. rewrite cut_efficiency_bins. unfold high_is_good_band.
    repeat split; intros; split_comparisons; try reflexivity; exfalso; lra.
  - intros ->. reflexivity.
  - apply cut_efficiency_none.
Qed.

Lemma risk_levels_follow_right_closed_bands_witness :
  exists m,
    nth_error edge_merged 0 = Some m
    /\ traffic_risk_level (feature_row m) = Some Low_Risk.
Proof.
  eexists. split; [vm_compute; reflexivity|].
  match goal with
  | |- traffic_risk_level (feature_row ?m) = _ =>
      refine (proj1 (proj1 (risk_levels_follow_right_closed_bands m)
                       _ eq_refl) _)
  end.
  discriminate.
Defined.

(** X10: when the delivery frame has no [package_weight] column, every
    output row whose delay is not -1 has an efficiency index of zero and
    the predicted delay risk level High Risk. *)
Theorem absent_weight_column_gives_high_risk
  (delivery_df : delivery_frame) (traffic_df : list traffic)
  (out : list final) (o : final) (d : Q) :
  in_columns "package_weight" delivery_df = false ->
  transform_frames delivery_df traffic_df = Ok out ->
  In o out ->
  final_delay_minutes o = Fin d ->
  ~ d == -1 ->
  exists q,
    delivery_efficiency_index o = Fin q /\ q == 0
    /\ predicted_delay_risk_level o = Some High_Risk.
Proof.
  intros Hno H Hin Hd Hne.
  destruct (output_row_index _ _ _ _ H Hin) as (Hi & Hp).
  destruct (output_row_delay _ _ _ _ H Hin) as (_ & Hw).
  unfold get_package_weight in Hw. rewrite Hno in Hw.
  rewrite Hw, Hd in Hi. cbn [fadd fdiv] in Hi.
  rewrite (proj2 (Qeq_bool_false (d + 1) 0)) in Hi by lra.
  cbn [fmul] in Hi.
  assert (Ez : 0 / (d + 1) * inject_Z (final_agent_score o) == 0)
    by (field; lra).
  eexists. split; [exact Hi|]. split; [exact Ez|].
  rewrite Hp, Hi, cut_efficiency_bins. unfold high_is_good_band.
  rewrite (proj2 (Qle_bool_iff _ 5)) by lra. reflexivity.
Qed.

Lemma absent_weight_column_gives_high_risk_witness :
  exists o,
    transform_frames
      {| d_columns := ["expected_delivery_time"; "actual_delivery_time"];
         d_rows := [delivered_after 70 (Fin 7.8)] |}
      fallback_traffic_data = Ok [o]
    /\ predicted_delay_risk_level o = Some High_Risk.
Proof.
  eexists. split; [vm_compute; reflexivity|].
  match goal with
  | |- predicted_delay_risk_level ?o = _ =>
      destruct (absent_weight_column_gives_high_risk
                  {| d_columns :=
                       ["expected_delivery_time"; "actual_delivery_time"];
                     d_rows := [delivered_after 70 (Fin 7.8)] |}
                  fallback_traffic_data [o] o _ eq_refl eq_refl
                  (or_introl eq_refl) eq_refl)
        as (q & _ & _ & Hrisk)
  end.
  - discriminate.
  - exact Hrisk.
Defined.



(** ** Raw files: which are read *)

Lemma string_append_assoc (a b c : string) :
  ((a ++ b) ++ c = a ++ (b ++ c))%string.
Proof. induction a as [|x a IH]; cbn; [reflexivity|]. now rewrite IH. Qed.

Lemma string_length_append (a b : string) :
  String.length (a ++ b) = (String.length a + String.length b)%nat.
Proof. induction a as [|x a IH]; cbn; [reflexivity|]. now rewrite IH. Qed.

Lemma prefix_iff_append (s1 s2 : string) :
  String.prefix s1 s2 = true <-> exists t, s2 = (s1 ++ t)%string.
Proof.
  revert s2. induction s1 as [|a s1 IH]; intro s2.
  - split; [intros _; exists s2; reflexivity|].
    intros _. destruct s2; reflexivity.
  - destruct s2 as [|b s2].
    + split; [discriminate | intros (t & H); discriminate].
    + cbn. destruct (Ascii.ascii_dec a b) as [->|Hne].
      * rewrite IH. split; intros (t & H); exists t.
        -- now rewrite H.
        -- cbn in H. now injection H.
      * split; [discriminate|]. intros (t & H). cbn in H.
        injection H as H _. congruence.
Qed.

Lemma substring_whole (s : string) : substring 0 (String.length s) s = s.
Proof. induction s as [|a s IH]; cbn; [reflexivity|]. now rewrite IH. Qed.

Lemma substring_after (a s : string) (m k : nat) :
  substring (String.length a + m) k (a ++ s) = substring m k s.
Proof. induction a as [|x a IH]; cbn; [reflexivity|]. exact IH. Qed.

Lemma substring_split (name suffix : string) (m : nat) :
  (m + String.length suffix = String.length name)%nat ->
  substring m (String.length suffix) name = suffix ->
  name = (substring 0 m name ++ suffix)%string.
Proof.
  revert name. induction m as [|m IH]; intros name Hlen Hsub.
  - cbn in Hlen. rewrite Hlen, substring_whole in Hsub. subst suffix.
    destruct name; reflexivity.
  - destruct name as [|c name]; [discriminate|].
    cbn in Hlen, Hsub |- *. f_equal. apply IH; [lia | assumption].
Qed.

Lemma ends_with_iff_append (suffix name : string) :
  ends_with suffix name = true <-> exists t, name = (t ++ suffix)%string.
Proof.
  unfold ends_with. rewrite andb_true_iff, Nat.leb_le, String.eqb_eq.
  split.
  - intros [Hle Hsub]. eexists.
    apply (substring_split name suffix
             (String.length name - String.length suffix));
      [lia | exact Hsub].
  - intros (t & ->). rewrite string_length_append. split; [lia|].
    replace (String.length t + String.length suffix - String.length suffix)
      %nat with (String.length t + 0)%nat by lia.
    rewrite substring_after. apply substring_whole.
Qed.



Lemma string_compare_trans (s1 s2 s3 : string) :
  String.compare s1 s2 <> Gt -> String.compare s2 s3 <> Gt ->
  String.compare s1 s3 <> Gt.
Proof.
  revert s2 s3. induction s1 as [|a s1 IH]; intros [|b s2] [|c s3];
    cbn; try congruence.
  unfold Ascii.compare.
  destruct (N.compare_spec (Ascii.N_of_ascii a) (Ascii.N_of_ascii b))
    as [Eab|Lab|Gab]; [| |congruence].
  - rewrite Eab.
    destruct (N.compare (Ascii.N_of_ascii b) (Ascii.N_of_ascii c));
      [apply IH | congruence | congruence].
  - intros _.
    destruct (N.compare_spec (Ascii.N_of_ascii b) (Ascii.N_of_ascii c))
      as [Ebc|Lbc|Gbc]; [| |congruence]; intros _.
    + rewrite <- Ebc. rewrite (proj2 (N.compare_lt_iff _ _) Lab).
      discriminate.
    + rewrite (proj2 (N.compare_lt_iff _ _)) by lia. discriminate.
Qed.

Lemma string_leb_trans (s1 s2 s3 : string) :
  String.leb s1 s2 = true -> String.leb s2 s3 = true ->
  String.leb s1 s3 = true.
Proof.
  unfold String.leb. intros H12 H23.
  pose proof (string_compare_trans s1 s2 s3) as H.
  destruct (String.compare s1 s2); try discriminate;
    destruct (String.compare s2 s3); try discriminate;
    destruct (String.compare s1 s3); try reflexivity;
    exfalso; apply H; congruence.
Qed.

Lemma string_leb_refl (s : string) : String.leb s s = true.
Proof. destruct (String.leb_total s s); assumption. Qed.

(** The head of the reverse-sorted list is one of the files and no file has
    a greater name. *)
Lemma sorted_reverse_head (files : list (string * frame))
  (h : string * frame) (rest : list (string * frame)) :
  sorted_reverse files = h :: rest ->
  In h files
  /\ forall g, In g files -> String.leb (fst g) (fst h) = true.
Proof.
  revert h rest. induction files as [|f files IH]; intros h rest H;
    [discriminate|].
  change (sorted_reverse (f :: files))
    with (insert_desc f (sorted_reverse files)) in H.
  destruct (sorted_reverse files) as [|g tail] eqn:Es.
  - apply (proj1 (sorted_reverse_nil files)) in Es. subst files.
    cbn in H. injection H as <- <-. split; [left; reflexivity|].
    intros g [<-|[]]. apply string_leb_refl.
  - destruct (IH g tail eq_refl) as (Hg & Hmax).
    cbn in H. destruct (String.leb (fst g) (fst f)) eqn:El.
    + injection H as <- <-. split; [left; reflexivity|].
      intros x [<-|Hx]; [apply string_leb_refl|].
      apply (string_leb_trans _ (fst g)); auto.
    + injection H as <- <-. split; [right; assumption|].
      intros x [<-|Hx]; [|auto].
      destruct (String.leb_total (fst f) (fst g)); congruence.
Qed.

(** X13: when [load_latest_file] returns a frame, it is the content of a
    file of the raw folder that the pattern of the keyword reads, and no
    file that the pattern reads has a name after it in the order of the
    names: with the timestamped names of the extraction, the latest
    batch.  The load changes nothing. *)
Theorem load_latest_file_reads_greatest_name
  (keyword : string) (w : world) (df : frame) :
  fst (load_latest_file keyword w) = Ok df ->
  snd (load_latest_file keyword w) = w
  /\ exists name,
       In (name, df) (raw_dir w)
       /\ glob_match keyword name = true
       /\ forall other content,
            In (other, content) (raw_dir w) ->
            glob_match keyword other = true ->
            String.leb other name = true.
Proof.
  unfold load_latest_file.
  destruct (sorted_reverse (glob (raw_dir w) keyword)) as [|latest rest]
    eqn:Es; [discriminate|].
  cbn. intro H. injection H as <-. split; [reflexivity|].
  destruct (sorted_reverse_head _ _ _ Es) as (Hin & Hmax).
  unfold glob in Hin. apply filter_In in Hin. destruct Hin as [Hin Hm].
  exists (fst latest). split; [|split].
  - destruct latest; exact Hin.
  - exact Hm.
  - intros other content Ho Hg.
    apply (Hmax (other, content)). unfold glob. apply filter_In. auto.
Qed.

Lemma load_latest_file_reads_greatest_name_witness :
  fst (load_latest_file "live_delivery" two_batches_world)
  = Ok (Deliveries fallback_delivery_data)
  /\ String.leb "live_delivery_20250112_090000.json"
       "live_delivery_20250113_070000.json" = true.
Proof.
  assert (E : fst (load_latest_file "live_delivery" two_batches_world)
              = Ok (Deliveries fallback_delivery_data))
    by (vm_compute; reflexivity).
  split; [exact E|].
  destruct (load_latest_file_reads_greatest_name _ _ _ E)
    as (_ & name & Hin & _ & Hmax).
  assert (N : name = "live_delivery_20250113_070000.json"%string).
  { cbn in Hin.
    destruct Hin as [H|[H|[H|[H|[]]]]]; try discriminate H.
    injection H as H. symmetry. exact H. }
  rewrite <- N.
  apply (Hmax _ (Deliveries (frame_of [SH001]))).
  - left. reflexivity.
  - reflexivity.
Defined.

(** ** The run on well-shaped sources *)





(** * [extract.py] *)

(** ** [make_request] *)

(** The loop touches neither the raw folder nor the clock. *)
Lemma attempts_keeps_files (out : outside) (url : string)
  (retries wait left : nat) (s : extraction) :
  raw_files (snd (attempts out url retries wait left s)) = raw_files s
  /\ clock_reads (snd (attempts out url retries wait left s))
     = clock_reads s.
Proof.
  revert s. induction left as [|left IH]; intro s; [split; reflexivity|].
  cbn [attempts]. cbn [say sent].
  destruct (respond out url (sent s)) as [e|body]; [|split; reflexivity].
  match goal with
  | |- context [attempts out url retries wait left ?s1] =>
      destruct (IH s1) as [Hf Hc]; rewrite Hf, Hc
  end.
  split; reflexivity.
Qed.

Lemma attempts_all_fail (out : outside) (url : string)
  (retries wait left : nat) (s : extraction) :
  (forall j, (j < left)%nat ->
             exists e, respond out url (sent s + j) = inl e) ->
  fst (attempts out url retries wait left s) = None
  /\ sent (snd (attempts out url retries wait left s))
     = (sent s + left)%nat
  /\ slept (snd (attempts out url retries wait left s))
     = (slept s + left * wait)%nat.
Proof.
  revert s. induction left as [|left IH]; intros s Hfail.
  - cbn. repeat split; lia.
  - cbn [attempts]. cbn [say sent].
    destruct (Hfail 0%nat ltac:(lia)) as (e & He).
    rewrite Nat.add_0_r in He. rewrite He.
    match goal with
    | |- context [attempts out url retries wait left ?s1] =>
        destruct (IH s1) as (Hr & Hs & Hz)
    end.
    + intros j Hj. cbn [sleep log say count_request sent].
      destruct (Hfail (S j) ltac:(lia)) as (e' & He').
      exists e'. rewrite <- He'. f_equal. lia.
    + rewrite Hr, Hs, Hz.
      cbn [sleep log say count_request sent slept Nat.mul].
      clear. repeat split; lia.
Qed.

Lemma attempts_first_success (out : outside) (url : string)
  (retries wait : nat) (body : frame) (i left : nat) (s : extraction) :
  (i < left)%nat ->
  (forall j, (j < i)%nat ->
             exists e, respond out url (sent s + j) = inl e) ->
  respond out url (sent s + i) = inr body ->
  fst (attempts out url retries wait left s) = Some body
  /\ sent (snd (attempts out url retries wait left s))
     = (sent s + i + 1)%nat
  /\ slept (snd (attempts out url retries wait left s))
     = (slept s + i * wait)%nat.
Proof.
  revert left s. induction i as [|i IH]; intros left s Hlt Hfail Hok;
    (destruct left as [|left]; [lia|]); cbn [attempts]; cbn [say sent].
  - rewrite Nat.add_0_r in Hok. rewrite Hok.
    cbn [fst snd log say count_request sent slept]. repeat split; lia.
  - destruct (Hfail 0%nat ltac:(lia)) as (e & He).
    rewrite Nat.add_0_r in He. rewrite He.
    match goal with
    | |- context [attempts out url retries wait left ?s1] =>
        destruct (IH left s1) as (Hr & Hs & Hz)
    end.
    + lia.
    + intros j Hj. cbn [sleep log say count_request sent].
      destruct (Hfail (S j) ltac:(lia)) as (e' & He').
      exists e'. rewrite <- He'. f_equal. lia.
    + cbn [sleep log say count_request sent]. rewrite <- Hok.
      f_equal. lia.
    + rewrite Hr, Hs, Hz.
      cbn [sleep log say count_request sent slept Nat.mul].
      clear. repeat split; lia.
Qed.

(** X15: [make_request] returns the body of the first answer that gets
    through within [retries] attempts; it has then sent one request per
    attempt made and slept [wait] seconds after each failed one, and it has
    written no file. *)
Theorem make_request_returns_first_answer
  (out : outside) (url : string) (retries wait i : nat) (body : frame)
  (s : extraction) :
  (i < retries)%nat ->
  (forall j, (j < i)%nat ->
             exists e, respond out url (sent s + j) = inl e) ->
  respond out url (sent s + i) = inr body ->
  fst (make_request out url retries wait s) = Some body
  /\ sent (snd (make_request out url retries wait s)) = (sent s + i + 1)%nat
  /\ slept (snd (make_request out url retries wait s))
     = (slept s + i * wait)%nat
  /\ raw_files (snd (make_request out url retries wait s)) = raw_files s.
Proof.
  intros Hlt Hfail Hok.
  destruct (attempts_first_success out url retries wait body i retries s
              Hlt Hfail Hok) as (Hr & Hs & Hz).
  pose proof (attempts_keeps_files out url retries wait retries s)
    as (Hf & _).
  unfold make_request.
  destruct (attempts out url retries wait retries s) as [r s'].
  cbn [fst snd] in *. subst r. cbn [fst snd]. auto.
Qed.

Lemma make_request_returns_first_answer_witness :
  fst (make_request (flaky (Routes [])) DELIVERY_API 3 2 fresh)
  = Some (Routes [])
  /\ slept (snd (make_request (flaky (Routes [])) DELIVERY_API 3 2 fresh))
     = 2%nat.
Proof.
  destruct (make_request_returns_first_answer (flaky (Routes []))
              DELIVERY_API 3 2 1 (Routes []) fresh)
    as (Hr & _ & Hz & _).
  - lia.
  - intros j Hj. exists "Timeout"%string.
    destruct j as [|j]; [reflexivity | lia].
  - reflexivity.
  - split; [exact Hr | exact Hz].
Defined.

Lemma make_request_after_loop (out : outside) (url : string)
  (retries wait : nat) (s : extraction) :
  fst (attempts out url retries wait retries s) = None ->
  make_request out url retries wait s
  = (if contains "deliveries" url
     then Some (Deliveries fallback_delivery_data)
     else if contains "traffic" url
          then Some (Routes fallback_traffic_data)
          else None,
     log "WARNING" ("FALLBACK - Using dummy data for: " ++ url)
       (say ("❌ API failed after " ++ str retries
             ++ " retries. Using fallback data.")
          (snd (attempts out url retries wait retries s)))).
Proof.
  unfold make_request.
  destruct (attempts out url retries wait retries s) as [r s'].
  cbn [fst snd]. intros ->. cbv zeta.
  destruct (contains "deliveries" url); [reflexivity|].
  destruct (contains "traffic" url); reflexivity.
Qed.

(** X16: when every one of the [retries] attempts fails, [make_request]
    does not raise: it has sent [retries] requests, slept [wait] seconds
    after each of them, the last included, has written no file, and
    returns the fallback: the delivery fixture for the delivery endpoint,
    the traffic fixture for the traffic endpoint, and nothing for a URL
    that holds neither [deliveries] nor [traffic]. *)
Theorem make_request_falls_back_after_retries
  (out : outside) (url : string) (retries wait : nat) (s : extraction) :
  (forall j, (j < retries)%nat ->
             exists e, respond out url (sent s + j) = inl e) ->
  sent (snd (make_request out url retries wait s)) = (sent s + retries)%nat
  /\ slept (snd (make_request out url retries wait s))
     = (slept s + retries * wait)%nat
  /\ raw_files (snd (make_request out url retries wait s)) = raw_files s
  /\ (url = DELIVERY_API ->
      fst (make_request out url retries wait s)
      = Some (Deliveries fallback_delivery_data))
  /\ (url = TRAFFIC_API ->
      fst (make_request out url retries wait s)
      = Some (Routes fallback_traffic_data))
  /\ (contains "deliveries" url = false ->
      contains "traffic" url = false ->
      fst (make_request out url retries wait s) = None).
Proof.
  intro Hfail.
  destruct (attempts_all_fail out url retries wait retries s Hfail)
    as (Hr & Hs & Hz).
  pose proof (attempts_keeps_files out url retries wait retries s)
    as (Hf & _).
  rewrite (make_request_after_loop out url retries wait s Hr).
  cbn [fst snd log say sent slept raw_files].
  split; [exact Hs|]. split; [exact Hz|]. split; [exact Hf|].
  split; [|split].
  - intros ->. reflexivity.
  - intros ->. reflexivity.
  - intros -> ->. reflexivity.
Qed.

Lemma make_request_falls_back_after_retries_witness :
  slept (snd (make_request unreachable DELIVERY_API 3 2 fresh)) = 6%nat
  /\ fst (make_request unreachable DELIVERY_API 3 2 fresh)
     = Some (Deliveries fallback_delivery_data).
Proof.
  destruct (make_request_falls_back_after_retries unreachable DELIVERY_API
              3 2 fresh) as (_ & Hz & _ & Hd & _).
  - intros j _. eexists. reflexivity.
  - split; [exact Hz | exact (Hd eq_refl)].
Defined.

(** ** [extract_all] *)

Lemma make_request_keeps_files (out : outside) (url : string)
  (retries wait : nat) (s : extraction) :
  raw_files (snd (make_request out url retries wait s)) = raw_files s
  /\ clock_reads (snd (make_request out url retries wait s))
     = clock_reads s.
Proof.
  pose proof (attempts_keeps_files out url retries wait retries s)
    as (Hf & Hc).
  destruct (fst (attempts out url retries wait retries s)) as [body|] eqn:E.
  - unfold make_request.
    destruct (attempts out url retries wait retries s) as [r s'].
    cbn [fst snd] in *. subst r. cbn [snd]. auto.
  - rewrite (make_request_after_loop out url retries wait s E).
    cbn [snd log say raw_files clock_reads]. auto.
Qed.





Lemma glob_match_own_name (keyword middle : string) :
  glob_match keyword (keyword ++ "_" ++ middle ++ ".json") = true.
Proof.
  unfold glob_match.
  rewrite <- (string_append_assoc keyword "_" (middle ++ ".json")).
  rewrite !andb_true_iff, Nat.leb_le. split; [split|].
  - rewrite !string_length_append. lia.
  - apply prefix_iff_append. eexists. reflexivity.
  - apply ends_with_iff_append.
    exists ((keyword ++ "_") ++ middle)%string.
    symmetry. apply string_append_assoc.
Qed.

Lemma glob_match_other_keyword (text : string) :
  glob_match "live_delivery" ("route_traffic_" ++ text) = false
  /\ glob_match "route_traffic" ("live_delivery_" ++ text) = false.
Proof.
  unfold glob_match. split; apply andb_false_iff; left;
    apply andb_false_iff; right; reflexivity.
Qed.



(** ** Extraction, then transformation *)


Lemma documents_injective (a b : list (string * frame)) :
  documents a = documents b -> a = b.
Proof.
  revert b. induction a as [|[n d] a IH]; intros [|[m e] b] H;
    try discriminate; [reflexivity|].
  cbn in H. injection H as -> -> H. f_equal. apply IH. exact H.
Qed.





(** X19: the shipped behaviour.  With both APIs unreachable and an empty
    raw folder, [extract_all] writes the two fallback fixtures, and
    [transform_pipeline] then succeeds and writes an artifact with one row:
    shipment SH002, 70 minutes late, Major Delay, agent score 2, a null
    traffic impact score and traffic risk level (Delhi has no traffic
    record) and the predicted delay risk level High Risk.  The undelivered
    shipment SH001 is not in it. *)
Theorem offline_extraction_then_transformation
  (out : outside) (s : extraction)
  (staged : list (string * list final)) (now_is : string)
  (printed : list string) :
  (forall url n, exists e, respond out url n = inl e) ->
  raw_files s = [] ->
  exists raw' o d,
    raw_files (snd (extract_all out s)) = documents raw'
    /\ transform_pipeline
         {| raw_dir := raw'; staged_dir := staged; clock := now_is;
            stdout := printed |}
       = (Ok (output_name now_is),
          {| raw_dir := raw';
             staged_dir := write_file (output_name now_is) [o] staged;
             clock := now_is;
             stdout :=
               printed
               ++ [banner;
                   ("💾 Transformed dataset saved → "
                    ++ output_name now_is)%string] |})
    /\ delivery_of o = SH002
    /\ final_delay_minutes o = Fin d /\ d == 70
    /\ final_delay_class o = Some Major_Delay
    /\ final_agent_score o = 2%Z
    /\ traffic_impact_score o = NaN
    /\ traffic_risk_level o = None
    /\ predicted_delay_risk_level o = Some High_Risk.
Proof.
  intros Hdown Hempty.
  assert (Hd : fst (make_request out DELIVERY_API 3 2
                      (say "🚀 Starting Extraction Pipeline..." s))
               = Some (Deliveries fallback_delivery_data)).
  { rewrite make_request_after_loop; [reflexivity|].
    apply attempts_all_fail. intros j _. apply Hdown. }
  set (n1 := ("live_delivery_" ++ stamp out (clock_reads s) ++ ".json")
             %string).
  set (n2 := ("route_traffic_" ++ stamp out (S (clock_reads s)) ++ ".json")
             %string).
  assert (Hfiles : raw_files (snd (extract_all out s))
                   = [(n2, Some (Routes fallback_traffic_data));
                      (n1, Some (Deliveries fallback_delivery_data))]).
  { unfold extract_all, extract_live_delivery_data.
    destruct (make_request_keeps_files out DELIVERY_API 3 2
                (say "🚀 Starting Extraction Pipeline..." s)) as (Hf1 & Hc1).
    destruct (make_request out DELIVERY_API 3 2
                (say "🚀 Starting Extraction Pipeline..." s)) as [r1 s1].
    cbn [fst snd say raw_files clock_reads] in Hd, Hf1, Hc1. subst r1.
    unfold extract_route_traffic_data.
    match goal with
    | |- context [make_request out TRAFFIC_API 3 2 ?s2] =>
        assert (Ht : fst (make_request out TRAFFIC_API 3 2 s2)
                     = Some (Routes fallback_traffic_data))
          by (rewrite make_request_after_loop; [reflexivity|];
              apply attempts_all_fail; intros j _; apply Hdown);
        destruct (make_request_keeps_files out TRAFFIC_API 3 2 s2)
          as (Hf2 & Hc2);
        destruct (make_request out TRAFFIC_API 3 2 s2) as [r2 s3]
    end.
    cbn [fst snd log say write_text read_clock raw_files clock_reads]
      in Ht, Hf2, Hc2 |- *.
    subst r2. rewrite Hf2, Hc2, Hf1, Hc1, Hempty.
    assert (Hne : String.eqb n1 n2 = false)
      by (apply String.eqb_neq; subst n1 n2; cbn; discriminate).
    unfold write_file. cbn [filter fst]. fold n1 n2. rewrite Hne.
    reflexivity. }
  exists [(n2, Routes fallback_traffic_data);
          (n1, Deliveries fallback_delivery_data)].
  destruct (transform_frames fallback_delivery_data fallback_traffic_data)
    as [rows|e] eqn:Erows; [|vm_compute in Erows; discriminate].
  vm_compute in Erows. injection Erows as <-.
  eexists. eexists. split; [exact Hfiles|]. split.
  - unfold transform_pipeline. rewrite transform_pipeline_with_loads.
    assert (L1 : fst (load_latest_file "live_delivery"
                        {| raw_dir :=
                             [(n2, Routes fallback_traffic_data);
                              (n1, Deliveries fallback_delivery_data)];
                           staged_dir := staged; clock := now_is;
                           stdout := printed |})
                 = Ok (Deliveries fallback_delivery_data)).
    { pose proof (proj1 (glob_match_other_keyword
                           (stamp out (S (clock_reads s)) ++ ".json")))
        as G2.
      pose proof (glob_match_own_name "live_delivery"
                    (stamp out (clock_reads s))) as G1.
      change (glob_match "live_delivery" n2 = false) in G2.
      change (glob_match "live_delivery" n1 = true) in G1.
      unfold load_latest_file, glob. cbn [raw_dir filter fst].
      rewrite G2, G1. reflexivity. }
    assert (L2 : fst (load_latest_file "route_traffic"
                        {| raw_dir :=
                             [(n2, Routes fallback_traffic_data);
                              (n1, Deliveries fallback_delivery_data)];
                           staged_dir := staged; clock := now_is;
                           stdout := printed |})
                 = Ok (Routes fallback_traffic_data)).
    { pose proof (proj2 (glob_match_other_keyword
                           (stamp out (clock_reads s) ++ ".json")))
        as G1.
      pose proof (glob_match_own_name "route_traffic"
                    (stamp out (S (clock_reads s)))) as G2.
      change (glob_match "route_traffic" n1 = false) in G1.
      change (glob_match "route_traffic" n2 = true) in G2.
      unfold load_latest_file, glob. cbn [raw_dir filter fst].
      rewrite G2, G1. reflexivity. }
    rewrite L1, L2. cbn [run_stages].
    replace (transform_frames fallback_delivery_data fallback_traffic_data)
      with (Ok (rows_or_empty
                  (transform_frames fallback_delivery_data
                     fallback_traffic_data)))
      by (vm_compute; reflexivity).
    cbv zeta. cbn [fst snd print to_csv raw_dir staged_dir clock stdout].
    rewrite <- app_assoc. reflexivity.
  - repeat split; reflexivity.
Qed.

Lemma offline_extraction_then_transformation_witness :
  exists raw' o,
    raw_files (snd (extract_all unreachable fresh)) = documents raw'
    /\ fst (transform_pipeline
              {| raw_dir := raw'; staged_dir := [];
                 clock := "20250112_091500"; stdout := [] |})
       = Ok "transformed_delivery_20250112_091500.csv"%string
    /\ delivery_of o = SH002.
Proof.
  destruct (offline_extraction_then_transformation unreachable fresh []
              "20250112_091500" [])
    as (raw' & o & d & Hraw & Hrun & Ho & _).
  - intros url n. eexists. reflexivity.
  - reflexivity.
  - exists raw', o. split; [exact Hraw|]. split; [|exact Ho].
    rewrite Hrun. reflexivity.
Defined.

(** ** Examples of the statements above *)

Lemma clean_keeps_rows_with_both_timestamps_witness :
  map base (clean_delivery_data fallback_delivery_data) = [SH002]
  /\ exists q,
       delay_minutes (clean_row fallback_delivery_data SH002) = Fin q.
Proof.
  destruct (clean_keeps_rows_with_both_timestamps fallback_delivery_data)
    as (Hrows & _ & Hrow).
  split.
  - rewrite Hrows. reflexivity.
  - destruct (Hrow (clean_row fallback_delivery_data SH002))
      as (_ & q & Hq).
    + left. reflexivity.
    + exists q. exact Hq.
Defined.


